(** * excelize: chart option defaulting, chart assembly and the
      data-validation builder

    A shallow embedding of [chart.go] and of the data-validation builder.

    Conventions of the embedding.
    - Go [string] is a byte sequence: [String.string], and [len] is
      [String.length].
    - Go [int], [uint] and the enumerations declared over them ([byte] for
      [ChartType]) are [Z].
    - An [error] result is an [option]: [None] is Go's [nil].
    - A method with a pointer receiver is a function from the receiver's
      value to its new value (and the returned error, when it has one).
    - Pointers that the code shares and writes through ([*Chart], [*Font])
      are addresses into an explicit store; pointers that are only tested
      against [nil] and re-assigned ([*bool], [*string]) are [option]s. *)

From Stdlib Require Import ZArith String Ascii DecimalString PrimFloat.
From Stdlib Require DecimalFacts DecimalPos DecimalZ.
From stdpp Require Import gmap strings list fin_maps.

Open Scope Z_scope.

(** ** Pieces of the Go standard library the sources call *)

(** [strconv.Itoa] and [fmt.Sprintf("%d", _)]: the decimal numeral, with a
    leading minus sign for a negative number. *)
Definition Itoa (n : Z) : string := NilZero.string_of_int (Z.to_int n).

(** [strings.Join]: nothing for no element, the element itself for one,
    otherwise the elements with [sep] between two neighbours. *)
Fixpoint Join (elems : list string) (sep : string) : string :=
  match elems with
  | [] => ""
  | [s] => s
  | s :: rest => s +:+ sep +:+ Join rest sep
  end.

(** [len], as an integer. *)
Definition len (s : string) : Z := Z.of_nat (String.length s).

(** The one-character string holding a double quote (byte 34). *)
Definition dquote : string := String (ascii_of_nat 34) EmptyString.

(** [n] copies of the byte [c]; used to build long inputs. *)
Fixpoint repeatByte (n : nat) (c : ascii) : string :=
  match n with
  | O => EmptyString
  | S k => String c (repeatByte k c)
  end.

(** ** The data-validation builder *)

Module Validation.

(** Data validation types ([iota] constants, the blank identifier is 0). *)
Definition typeNone : Z := 1.
Definition DataValidationTypeCustom : Z := 2.
Definition DataValidationTypeDate : Z := 3.
Definition DataValidationTypeDecimal : Z := 4.
Definition typeList : Z := 5.
Definition DataValidationTypeTextLeng : Z := 6.
Definition DataValidationTypeTime : Z := 7.
Definition DataValidationTypeWhole : Z := 8.

(** 255 characters + 2 quotes. *)
Definition dataValidationFormulaStrLen : Z := 257.
Definition dataValidationFormulaStrLenErr : string :=
  "data validation must be 0-255 characters".

(** Data validation error styles. *)
Definition DataValidationErrorStyleStop : Z := 1.
Definition DataValidationErrorStyleWarning : Z := 2.
Definition DataValidationErrorStyleInformation : Z := 3.

Definition styleStop : string := "stop".
Definition styleWarning : string := "warning".
Definition styleInformation : string := "information".

(** Data validation operators. *)
Definition DataValidationOperatorBetween : Z := 1.
Definition DataValidationOperatorEqual : Z := 2.
Definition DataValidationOperatorGreaterThan : Z := 3.
Definition DataValidationOperatorGreaterThanOrEqual : Z := 4.
Definition DataValidationOperatorLessThan : Z := 5.
Definition DataValidationOperatorLessThanOrEqual : Z := 6.
Definition DataValidationOperatorNotBetween : Z := 7.
Definition DataValidationOperatorNotEqual : Z := 8.

(** Modelled from the spec: the declaration of the [DataValidation] struct
    is not among the sources. The record has the fields the builder reads
    and writes, with the types the builder uses them at: the allow-blank
    flag, type and operator keywords, two formula strings, the target range
    reference, the optional error alert and input prompt. [Type_] stands
    for the Go field [Type]. *)
Record DataValidation := mkDataValidation {
  AllowBlank : bool;
  Error : option string;
  ErrorStyle : option string;
  ErrorTitle : option string;
  Operator : string;
  Prompt : option string;
  PromptTitle : option string;
  ShowErrorMessage : bool;
  ShowInputMessage : bool;
  Sqref : string;
  Type_ : string;
  Formula1 : string;
  Formula2 : string
}.

(** [NewDataValidation]: every field not listed is at its zero value. *)
Definition NewDataValidation (allowBlank : bool) : DataValidation :=
  {| AllowBlank := allowBlank;
     Error := None; ErrorStyle := None; ErrorTitle := None;
     Operator := "";
     Prompt := None; PromptTitle := None;
     ShowErrorMessage := false;
     ShowInputMessage := false;
     Sqref := ""; Type_ := ""; Formula1 := ""; Formula2 := "" |}.

(** [convDataValidationType]: a lookup in a map literal; a missing key
    gives the zero value of [string]. *)
Definition dataValidationTypeMap : gmap Z string :=
  list_to_map
    [ (typeNone, "none");
      (DataValidationTypeCustom, "custom");
      (DataValidationTypeDate, "date");
      (DataValidationTypeDecimal, "decimal");
      (typeList, "list");
      (DataValidationTypeTextLeng, "textLength");
      (DataValidationTypeTime, "time");
      (DataValidationTypeWhole, "whole") ].

Definition convDataValidationType (t : Z) : string :=
  default "" (dataValidationTypeMap !! t).

(** [convDataValidationOperatior] (the source's spelling). *)
Definition dataValidationOperatorMap : gmap Z string :=
  list_to_map
    [ (DataValidationOperatorBetween, "between");
      (DataValidationOperatorEqual, "equal");
      (DataValidationOperatorGreaterThan, "greaterThan");
      (DataValidationOperatorGreaterThanOrEqual, "greaterThanOrEqual");
      (DataValidationOperatorLessThan, "lessThan");
      (DataValidationOperatorLessThanOrEqual, "lessThanOrEqual");
      (DataValidationOperatorNotBetween, "notBetween");
      (DataValidationOperatorNotEqual, "notEqual") ].

Definition convDataValidationOperatior (o : Z) : string :=
  default "" (dataValidationOperatorMap !! o).

(** [SetError]: the [switch] leaves [strStyle] at [styleStop] when no case
    matches. *)
Definition SetError (style : Z) (title msg : string) (dd : DataValidation)
  : DataValidation :=
  let strStyle :=
    if style =? DataValidationErrorStyleStop then styleStop
    else if style =? DataValidationErrorStyleWarning then styleWarning
    else if style =? DataValidationErrorStyleInformation then styleInformation
    else styleStop in
  {| AllowBlank := AllowBlank dd;
     Error := Some msg;
     ErrorStyle := Some strStyle;
     ErrorTitle := Some title;
     Operator := Operator dd;
     Prompt := Prompt dd; PromptTitle := PromptTitle dd;
     ShowErrorMessage := true;
     ShowInputMessage := ShowInputMessage dd;
     Sqref := Sqref dd; Type_ := Type_ dd;
     Formula1 := Formula1 dd; Formula2 := Formula2 dd |}.

(** [SetInput]. *)
Definition SetInput (title msg : string) (dd : DataValidation)
  : DataValidation :=
  {| AllowBlank := AllowBlank dd;
     Error := Error dd; ErrorStyle := ErrorStyle dd;
     ErrorTitle := ErrorTitle dd;
     Operator := Operator dd;
     Prompt := Some msg; PromptTitle := Some title;
     ShowErrorMessage := ShowErrorMessage dd;
     ShowInputMessage := true;
     Sqref := Sqref dd; Type_ := Type_ dd;
     Formula1 := Formula1 dd; Formula2 := Formula2 dd |}.

(** [SetDropList]: the only [return] is [return nil]. *)
Definition SetDropList (keys : list string) (dd : DataValidation)
  : DataValidation * option string :=
  ({| AllowBlank := AllowBlank dd;
      Error := Error dd; ErrorStyle := ErrorStyle dd;
      ErrorTitle := ErrorTitle dd;
      Operator := Operator dd;
      Prompt := Prompt dd; PromptTitle := PromptTitle dd;
      ShowErrorMessage := ShowErrorMessage dd;
      ShowInputMessage := ShowInputMessage dd;
      Sqref := Sqref dd;
      Type_ := convDataValidationType typeList;
      Formula1 := dquote +:+ Join keys "," +:+ dquote;
      Formula2 := Formula2 dd |}, None).

(** [SetRange]: the length test reads [dd.Formula1] and [dd.Formula2], the
    fields as they are on entry; [formula1] and [formula2] are the newly
    formatted bounds. *)
Definition SetRange (f1 f2 : Z) (t o : Z) (dd : DataValidation)
  : DataValidation * option string :=
  let formula1 := Itoa f1 in
  let formula2 := Itoa f2 in
  if (dataValidationFormulaStrLen <? len (Formula1 dd))
     || (dataValidationFormulaStrLen <? len (Formula2 dd))
  then (dd, Some dataValidationFormulaStrLenErr)
  else
    ({| AllowBlank := AllowBlank dd;
        Error := Error dd; ErrorStyle := ErrorStyle dd;
        ErrorTitle := ErrorTitle dd;
        Operator := convDataValidationOperatior o;
        Prompt := Prompt dd; PromptTitle := PromptTitle dd;
        ShowErrorMessage := ShowErrorMessage dd;
        ShowInputMessage := ShowInputMessage dd;
        Sqref := Sqref dd;
        Type_ := convDataValidationType t;
        Formula1 := formula1;
        Formula2 := formula2 |}, None).

(** [SetSqref]: [fmt.Sprintf("%s %s", a, b)] is [a], one space, [b]. *)
Definition SetSqref (sqref : string) (dd : DataValidation) : DataValidation :=
  {| AllowBlank := AllowBlank dd;
     Error := Error dd; ErrorStyle := ErrorStyle dd;
     ErrorTitle := ErrorTitle dd;
     Operator := Operator dd;
     Prompt := Prompt dd; PromptTitle := PromptTitle dd;
     ShowErrorMessage := ShowErrorMessage dd;
     ShowInputMessage := ShowInputMessage dd;
     Sqref := if String.eqb (Sqref dd) "" then sqref
              else Sqref dd +:+ " " +:+ sqref;
     Type_ := Type_ dd;
     Formula1 := Formula1 dd; Formula2 := Formula2 dd |}.

(** A builder call that sets a formula, and a chain of such calls on one
    rule. A chain runs to its end whatever the calls return, as a caller
    that drops the returned errors does; the errors are collected. *)
Inductive FormulaOp :=
| OpSetDropList (keys : list string)
| OpSetRange (f1 f2 : Z) (t o : Z).

Definition applyOp (op : FormulaOp) (dd : DataValidation)
  : DataValidation * option string :=
  match op with
  | OpSetDropList keys => SetDropList keys dd
  | OpSetRange f1 f2 t o => SetRange f1 f2 t o dd
  end.

Fixpoint applyOps (ops : list FormulaOp) (dd : DataValidation)
  : DataValidation * list (option string) :=
  match ops with
  | [] => (dd, [])
  | op :: rest =>
      let '(dd1, e) := applyOp op dd in
      let '(dd2, es) := applyOps rest dd1 in
      (dd2, e :: es)
  end.

(** The invariant of the rule: neither formula is longer than the limit. *)
Definition formulasWithinLimit (dd : DataValidation) : Prop :=
  len (Formula1 dd) <= dataValidationFormulaStrLen /\
  len (Formula2 dd) <= dataValidationFormulaStrLen.

(** A rule whose first formula is over the limit: a freshly constructed
    rule after one drop list whose only key has 300 bytes. *)
Definition longListRule : DataValidation :=
  fst (SetDropList [repeatByte 300 "a"%char] (NewDataValidation true)).

End Validation.

(** ** Chart options *)

Module Charts.

(** The supported chart types: [ChartType] is a [byte], the constants are
    numbered by [iota] from [Area = 0]. *)
Definition Area : Z := 0.
Definition AreaStacked : Z := 1.
Definition AreaPercentStacked : Z := 2.
Definition Area3D : Z := 3.
Definition Area3DStacked : Z := 4.
Definition Area3DPercentStacked : Z := 5.
Definition Bar : Z := 6.
Definition BarStacked : Z := 7.
Definition BarPercentStacked : Z := 8.
Definition Bar3DClustered : Z := 9.
Definition Bar3DStacked : Z := 10.
Definition Bar3DPercentStacked : Z := 11.
Definition Bar3DConeClustered : Z := 12.
Definition Bar3DConeStacked : Z := 13.
Definition Bar3DConePercentStacked : Z := 14.
Definition Bar3DPyramidClustered : Z := 15.
Definition Bar3DPyramidStacked : Z := 16.
Definition Bar3DPyramidPercentStacked : Z := 17.
Definition Bar3DCylinderClustered : Z := 18.
Definition Bar3DCylinderStacked : Z := 19.
Definition Bar3DCylinderPercentStacked : Z := 20.
Definition Col : Z := 21.
Definition ColStacked : Z := 22.
Definition ColPercentStacked : Z := 23.
Definition Col3D : Z := 24.
Definition Col3DClustered : Z := 25.
Definition Col3DStacked : Z := 26.
Definition Col3DPercentStacked : Z := 27.
Definition Col3DCone : Z := 28.
Definition Col3DConeClustered : Z := 29.
Definition Col3DConeStacked : Z := 30.
Definition Col3DConePercentStacked : Z := 31.
Definition Col3DPyramid : Z := 32.
Definition Col3DPyramidClustered : Z := 33.
Definition Col3DPyramidStacked : Z := 34.
Definition Col3DPyramidPercentStacked : Z := 35.
Definition Col3DCylinder : Z := 36.
Definition Col3DCylinderClustered : Z := 37.
Definition Col3DCylinderStacked : Z := 38.
Definition Col3DCylinderPercentStacked : Z := 39.
Definition Doughnut : Z := 40.
Definition Line : Z := 41.
Definition Line3D : Z := 42.
Definition Pie : Z := 43.
Definition Pie3D : Z := 44.
Definition PieOfPie : Z := 45.
Definition BarOfPie : Z := 46.
Definition Radar : Z := 47.
Definition Scatter : Z := 48.
Definition Surface3D : Z := 49.
Definition WireframeSurface3D : Z := 50.
Definition Contour : Z := 51.
Definition WireframeContour : Z := 52.
Definition Bubble : Z := 53.
Definition Bubble3D : Z := 54.

(** The value-axis number-format table; its keys are the supported chart
    types. *)
Definition chartValAxNumFmtFormatCode : gmap Z string :=
  list_to_map
    [ (Area, "General");
      (AreaStacked, "General");
      (AreaPercentStacked, "0%");
      (Area3D, "General");
      (Area3DStacked, "General");
      (Area3DPercentStacked, "0%");
      (Bar, "General");
      (BarStacked, "General");
      (BarPercentStacked, "0%");
      (Bar3DClustered, "General");
      (Bar3DStacked, "General");
      (Bar3DPercentStacked, "0%");
      (Bar3DConeClustered, "General");
      (Bar3DConeStacked, "General");
      (Bar3DConePercentStacked, "0%");
      (Bar3DPyramidClustered, "General");
      (Bar3DPyramidStacked, "General");
      (Bar3DPyramidPercentStacked, "0%");
      (Bar3DCylinderClustered, "General");
      (Bar3DCylinderStacked, "General");
      (Bar3DCylinderPercentStacked, "0%");
      (Col, "General");
      (ColStacked, "General");
      (ColPercentStacked, "0%");
      (Col3D, "General");
      (Col3DClustered, "General");
      (Col3DStacked, "General");
      (Col3DPercentStacked, "0%");
      (Col3DCone, "General");
      (Col3DConeClustered, "General");
      (Col3DConeStacked, "General");
      (Col3DConePercentStacked, "0%");
      (Col3DPyramid, "General");
      (Col3DPyramidClustered, "General");
      (Col3DPyramidStacked, "General");
      (Col3DPyramidPercentStacked, "0%");
      (Col3DCylinder, "General");
      (Col3DCylinderClustered, "General");
      (Col3DCylinderStacked, "General");
      (Col3DCylinderPercentStacked, "0%");
      (Doughnut, "General");
      (Line, "General");
      (Line3D, "General");
      (Pie, "General");
      (Pie3D, "General");
      (PieOfPie, "General");
      (BarOfPie, "General");
      (Radar, "General");
      (Scatter, "General");
      (Surface3D, "General");
      (WireframeSurface3D, "General");
      (Contour, "General");
      (WireframeContour, "General");
      (Bubble, "General");
      (Bubble3D, "General") ].

(** Modelled from the spec: the error values [ErrParameterInvalid] and
    [newUnsupportedChartType] are declared outside the sources. The
    unsupported-chart-type error carries the offending type; the errors of
    the collaborators of chart assembly are [ErrCollaborator]. *)
Inductive error :=
| ErrParameterInvalid
| ErrUnsupportedChartType (chartType : Z)
| ErrCollaborator (msg : string).

(** Modelled from the spec: the defaults are constants declared outside
    the sources; the documentation of [AddChart] names the same values
    (width 480 and height 260, legend position bottom, blanks shown as gap,
    picture scale 1.0). *)
Definition defaultChartDimensionWidth : Z := 480.
Definition defaultChartDimensionHeight : Z := 260.
Definition defaultPictureScale : float := 1%float.
Definition defaultChartLegendPosition : string := "bottom".
Definition defaultChartShowBlanksAs : string := "gap".

(** Modelled from the spec: the struct declarations are outside the
    sources. Each record has the fields that [parseChartOptions] and
    [AddChart] touch, and those that the examples in the documentation of
    [AddChart] set next to them. [float64] is the primitive binary64 type,
    so that [== 0] is true of both zeros and false of a NaN. A [*Font] is
    an address in the store of fonts; [*bool] is only compared with [nil]
    and replaced, never written through. *)
Record Font := mkFont {
  Color : string;
  Size : float
}.

Record RichTextRun := mkRichTextRun {
  Font_ : option nat;
  Text : string
}.

Record ChartDimension := mkChartDimension {
  Width : Z;
  Height : Z
}.

Record GraphicOptions := mkGraphicOptions {
  OffsetX : Z;
  OffsetY : Z;
  ScaleX : float;
  ScaleY : float;
  PrintObject : option bool;
  LockAspectRatio : bool;
  Locked : option bool
}.

Record ChartLegend := mkChartLegend {
  Position : string;
  ShowLegendKey : bool
}.

Record Chart := mkChart {
  Type_ : Z;
  Dimension : ChartDimension;
  Format : GraphicOptions;
  Legend : ChartLegend;
  Title : list RichTextRun;
  VaryColors : option bool;
  ShowBlanksAs : string
}.

(** The store: the fonts and the charts that pointers refer to. An address
    is an index; [&Font{}] allocates at the end of the fonts. Two runs may
    point to one font, and the primary chart and the combo charts may be
    one chart. The slice [Title] is held in its chart: no two charts of the
    store share the array behind their titles. *)
Record Heap := mkHeap {
  fonts : list Font;
  charts : list Chart
}.

(** [&Font{}]: the zero value. *)
Definition zeroFont : Font := {| Color := ""; Size := 0%float |}.

(** Field assignments. *)
Definition setColor (v : string) (f : Font) : Font :=
  {| Color := v; Size := Size f |}.
Definition setSize (v : float) (f : Font) : Font :=
  {| Color := Color f; Size := v |}.

Definition setWidth (v : Z) (c : Chart) : Chart :=
  {| Type_ := Type_ c;
     Dimension := {| Width := v; Height := Height (Dimension c) |};
     Format := Format c; Legend := Legend c; Title := Title c;
     VaryColors := VaryColors c; ShowBlanksAs := ShowBlanksAs c |}.
Definition setHeight (v : Z) (c : Chart) : Chart :=
  {| Type_ := Type_ c;
     Dimension := {| Width := Width (Dimension c); Height := v |};
     Format := Format c; Legend := Legend c; Title := Title c;
     VaryColors := VaryColors c; ShowBlanksAs := ShowBlanksAs c |}.
Definition setFormat (v : GraphicOptions) (c : Chart) : Chart :=
  {| Type_ := Type_ c; Dimension := Dimension c;
     Format := v; Legend := Legend c; Title := Title c;
     VaryColors := VaryColors c; ShowBlanksAs := ShowBlanksAs c |}.
Definition setPrintObject (v : option bool) (g : GraphicOptions)
  : GraphicOptions :=
  {| OffsetX := OffsetX g; OffsetY := OffsetY g;
     ScaleX := ScaleX g; ScaleY := ScaleY g;
     PrintObject := v;
     LockAspectRatio := LockAspectRatio g; Locked := Locked g |}.
Definition setLocked (v : option bool) (g : GraphicOptions)
  : GraphicOptions :=
  {| OffsetX := OffsetX g; OffsetY := OffsetY g;
     ScaleX := ScaleX g; ScaleY := ScaleY g;
     PrintObject := PrintObject g;
     LockAspectRatio := LockAspectRatio g; Locked := v |}.
Definition setScaleX (v : float) (g : GraphicOptions) : GraphicOptions :=
  {| OffsetX := OffsetX g; OffsetY := OffsetY g;
     ScaleX := v; ScaleY := ScaleY g;
     PrintObject := PrintObject g;
     LockAspectRatio := LockAspectRatio g; Locked := Locked g |}.
Definition setScaleY (v : float) (g : GraphicOptions) : GraphicOptions :=
  {| OffsetX := OffsetX g; OffsetY := OffsetY g;
     ScaleX := ScaleX g; ScaleY := v;
     PrintObject := PrintObject g;
     LockAspectRatio := LockAspectRatio g; Locked := Locked g |}.
Definition setPosition (v : string) (c : Chart) : Chart :=
  {| Type_ := Type_ c; Dimension := Dimension c; Format := Format c;
     Legend := {| Position := v;
                  ShowLegendKey := ShowLegendKey (Legend c) |};
     Title := Title c;
     VaryColors := VaryColors c; ShowBlanksAs := ShowBlanksAs c |}.
Definition setTitle (v : list RichTextRun) (c : Chart) : Chart :=
  {| Type_ := Type_ c; Dimension := Dimension c; Format := Format c;
     Legend := Legend c; Title := v;
     VaryColors := VaryColors c; ShowBlanksAs := ShowBlanksAs c |}.
Definition setVaryColors (v : option bool) (c : Chart) : Chart :=
  {| Type_ := Type_ c; Dimension := Dimension c; Format := Format c;
     Legend := Legend c; Title := Title c;
     VaryColors := v; ShowBlanksAs := ShowBlanksAs c |}.
Definition setShowBlanksAs (v : string) (c : Chart) : Chart :=
  {| Type_ := Type_ c; Dimension := Dimension c; Format := Format c;
     Legend := Legend c; Title := Title c;
     VaryColors := VaryColors c; ShowBlanksAs := v |}.

(** One turn of the loop over [opts.Title] in [parseChartOptions], on the
    run [r] = [opts.Title[i]]: a [nil] font is replaced by a newly
    allocated zero font, then the colour and the size are tested and
    written through the pointer. *)
Definition parseTitleRun (fs : list Font) (r : RichTextRun)
  : list Font * RichTextRun :=
  let '(fs, p) :=
    match Font_ r with
    | None => (fs ++ [zeroFont], length fs)
    | Some p => (fs, p)
    end in
  let fs :=
    match fs !! p with
    | Some f =>
        if String.eqb (Color f) "" then <[p := setColor "595959" f]> fs
        else fs
    | None => fs
    end in
  let fs :=
    match fs !! p with
    | Some f =>
        if PrimFloat.eqb (Size f) 0 then <[p := setSize 14 f]> fs else fs
    | None => fs
    end in
  (fs, {| Font_ := Some p; Text := Text r |}).

(** [for i := range opts.Title]. *)
Fixpoint parseTitle (fs : list Font) (runs : list RichTextRun)
  : list Font * list RichTextRun :=
  match runs with
  | [] => (fs, [])
  | r :: rest =>
      let '(fs1, r1) := parseTitleRun fs r in
      let '(fs2, rest1) := parseTitle fs1 rest in
      (fs2, r1 :: rest1)
  end.

(** The statements of [parseChartOptions] before and after the loop, one
    function for each [if]: a field at its zero value is given its
    default. *)
Definition defaultWidth (c : Chart) : Chart :=
  if Width (Dimension c) =? 0
  then setWidth defaultChartDimensionWidth c else c.

Definition defaultHeight (c : Chart) : Chart :=
  if Height (Dimension c) =? 0
  then setHeight defaultChartDimensionHeight c else c.

Definition defaultPrintObject (c : Chart) : Chart :=
  match PrintObject (Format c) with
  | None => setFormat (setPrintObject (Some true) (Format c)) c
  | Some _ => c
  end.

Definition defaultLocked (c : Chart) : Chart :=
  match Locked (Format c) with
  | None => setFormat (setLocked (Some false) (Format c)) c
  | Some _ => c
  end.

Definition defaultScaleX (c : Chart) : Chart :=
  if PrimFloat.eqb (ScaleX (Format c)) 0
  then setFormat (setScaleX defaultPictureScale (Format c)) c else c.

Definition defaultScaleY (c : Chart) : Chart :=
  if PrimFloat.eqb (ScaleY (Format c)) 0
  then setFormat (setScaleY defaultPictureScale (Format c)) c else c.

Definition defaultPosition (c : Chart) : Chart :=
  if String.eqb (Position (Legend c)) ""
  then setPosition defaultChartLegendPosition c else c.

Definition defaultVaryColors (c : Chart) : Chart :=
  match VaryColors c with
  | None => setVaryColors (Some true) c
  | Some _ => c
  end.

Definition defaultShowBlanksAs (c : Chart) : Chart :=
  if String.eqb (ShowBlanksAs c) ""
  then setShowBlanksAs defaultChartShowBlanksAs c else c.

(** The body of [parseChartOptions] on the chart that [opts] points to:
    its statements in the order of the source, with the loop over the
    title between the legend position and [VaryColors]. *)
Definition parseChart (fs : list Font) (c : Chart) : list Font * Chart :=
  let c := defaultWidth c in
  let c := defaultHeight c in
  let c := defaultPrintObject c in
  let c := defaultLocked c in
  let c := defaultScaleX c in
  let c := defaultScaleY c in
  let c := defaultPosition c in
  let '(fs, title) := parseTitle fs (Title c) in
  let c := setTitle title c in
  let c := defaultVaryColors c in
  let c := defaultShowBlanksAs c in
  (fs, c).

(** [parseChartOptions]: the chart is changed in place and the pointer
    given is the pointer returned. The result is [None] when the model has
    no meaning: an address with no chart behind it, which no Go pointer
    is. *)
Definition parseChartOptions (opts : option nat) (h : Heap)
  : option (Heap * (option nat * option error)) :=
  match opts with
  | None => Some (h, (None, Some ErrParameterInvalid))
  | Some a =>
      c ← charts h !! a;
      let '(fs, c1) := parseChart (fonts h) c in
      Some ({| fonts := fs; charts := <[a := c1]> (charts h) |},
            (Some a, None))
  end.

(** The loop of [getChartOptions] over [combo]; [options] is the pointer
    to the primary chart and [comboCharts] the slice built so far. A [nil]
    dereference, which panics, is [None]. *)
Fixpoint getComboCharts (options : option nat) (combo : list (option nat))
    (comboCharts : list (option nat)) (h : Heap)
  : option (Heap * (option nat * list (option nat) * option error)) :=
  match combo with
  | [] => Some (h, (options, comboCharts, None))
  | comboFormat :: rest =>
      '(h1, (comboChart, err)) ← parseChartOptions comboFormat h;
      match err with
      | Some e => Some (h1, (options, comboCharts, Some e))
      | None =>
          b ← comboChart;
          c ← charts h1 !! b;
          match chartValAxNumFmtFormatCode !! Type_ c with
          | None =>
              Some (h1, (options, comboCharts,
                         Some (ErrUnsupportedChartType (Type_ c))))
          | Some _ =>
              getComboCharts options rest (comboCharts ++ [comboChart]) h1
          end
      end
  end.

(** [getChartOptions]. *)
Definition getChartOptions (opts : option nat) (combo : list (option nat))
    (h : Heap)
  : option (Heap * (option nat * list (option nat) * option error)) :=
  let comboCharts : list (option nat) := [] in
  '(h1, (options, err)) ← parseChartOptions opts h;
  match err with
  | Some e => Some (h1, (options, comboCharts, Some e))
  | None =>
      '(h2, (_, comboCharts, err)) ←
        getComboCharts options combo comboCharts h1;
      match err with
      | Some e => Some (h2, (options, comboCharts, Some e))
      | None =>
          a ← options;
          c ← charts h2 !! a;
          match chartValAxNumFmtFormatCode !! Type_ c with
          | None =>
              Some (h2, (options, comboCharts,
                         Some (ErrUnsupportedChartType (Type_ c))))
          | Some _ => Some (h2, (options, comboCharts, None))
          end
      end
  end.

(** *** Notions used to state the properties *)

(** The type of the chart behind a pointer, when there is a chart. *)
Definition chartTypeAt (h : Heap) (p : option nat) : option Z :=
  b ← p; Type_ <$> charts h !! b.

(** A pointer, [nil] or to a chart of the store. *)
Definition live (h : Heap) (p : option nat) : Prop :=
  p = None \/ is_Some (chartTypeAt h p).

(** A pointer to a chart whose type is a key of the table. *)
Definition supportedAt (h : Heap) (p : option nat) : Prop :=
  exists t, chartTypeAt h p = Some t /\
            is_Some (chartValAxNumFmtFormatCode !! t).

(** A pointer that [getChartOptions] rejects with the error [e]: [nil], or
    a pointer to a chart whose type is no key of the table. *)
Definition rejectedAt (h : Heap) (p : option nat) (e : error) : Prop :=
  (p = None /\ e = ErrParameterInvalid) \/
  (exists t, chartTypeAt h p = Some t /\
             chartValAxNumFmtFormatCode !! t = None /\
             e = ErrUnsupportedChartType t).

(** Defaulting the charts behind a list of pointers, one after the other,
    each on the store the one before left. *)
Fixpoint parseAll (ps : list (option nat)) (h : Heap) : option Heap :=
  match ps with
  | [] => Some h
  | p :: rest => '(h1, _) ← parseChartOptions p h; parseAll rest h1
  end.

(** A font and a run are at rest when defaulting has nothing left to fill
    in: the colour is not empty and the size is not zero; the run has a
    font, and the font behind it, if any, is at rest. *)
Definition fontAtRest (f : Font) : Prop :=
  String.eqb (Color f) "" = false /\ PrimFloat.eqb (Size f) 0 = false.

Definition runAtRest (fs : list Font) (r : RichTextRun) : Prop :=
  exists p, Font_ r = Some p /\ forall f, fs !! p = Some f -> fontAtRest f.

(** Charts for the examples: every field but the type at its zero value. *)
Definition zeroGraphicOptions : GraphicOptions :=
  {| OffsetX := 0; OffsetY := 0; ScaleX := 0; ScaleY := 0;
     PrintObject := None; LockAspectRatio := false; Locked := None |}.

Definition zeroChart (t : Z) : Chart :=
  {| Type_ := t;
     Dimension := {| Width := 0; Height := 0 |};
     Format := zeroGraphicOptions;
     Legend := {| Position := ""; ShowLegendKey := false |};
     Title := [];
     VaryColors := None;
     ShowBlanksAs := "" |}.

(** A store with four charts: two of types that are no keys of the table
    (55 and 56), a line chart, and a column chart whose title has a run
    without font and two runs that share one font. *)
Definition exampleHeap : Heap :=
  {| fonts := [ {| Color := ""; Size := 0 |} ];
     charts :=
       [ zeroChart 55;
         zeroChart 56;
         zeroChart Line;
         setTitle [ {| Font_ := None; Text := "Fruit" |};
                    {| Font_ := Some 0%nat; Text := " by " |};
                    {| Font_ := Some 0%nat; Text := "size" |} ]
                  (zeroChart Col) ] |}.

End Charts.

(** ** Chart assembly *)

Module Assembly.
Import Charts.

(** [strings.Contains]: [substr] occurs in [s] at some position. *)
Fixpoint Contains (s substr : string) : bool :=
  String.prefix substr s ||
  match s with
  | EmptyString => false
  | String _ rest => Contains rest substr
  end.

(** The conversion [int(_)] of a [uint], on 64 bits. *)
Definition intOfUint (n : Z) : Z :=
  if n <? 2 ^ 63 then n else n - 2 ^ 64.

(** The open document: the package parts [Pkg], keyed by path, and the
    rest of the document, which only the collaborators look into. *)
Record File (R : Type) := mkFile {
  Pkg : gmap string string;
  Other : R
}.
Arguments mkFile {R} _ _.
Arguments Pkg {R} _.
Arguments Other {R} _.

(** [countCharts]: the number of parts whose path contains
    [xl/charts/chart]. *)
Definition countCharts {R : Type} (f : File R) : Z :=
  map_fold (fun (k : string) (_ : string) (count : Z) =>
              if Contains k "xl/charts/chart" then count + 1 else count)
           0 (Pkg f).

Section AddChart.

(** The collaborators of [AddChart] are declared outside the sources:
    each is a parameter. A method of [*File] takes the document and
    gives it back; one that is also handed a pointer to a chart takes
    and gives back the store of charts as well. *)
Context {R Worksheet NameSpace : Type}.
Variable workSheetReader :
  string -> File R -> File R * (option Worksheet * option error).
Variable countDrawings : File R -> File R * Z.
Variable prepareDrawing :
  option Worksheet -> Z -> string -> string -> File R ->
  File R * (Z * string).
Variable addRels :
  string -> string -> string -> string -> File R -> File R * Z.
Variable addDrawingChart :
  string -> string -> string -> Z -> Z -> Z -> nat ->
  File R * Heap -> File R * Heap * option error.
Variable addChart :
  option nat -> list (option nat) -> File R * Heap -> File R * Heap.
Variable addContentTypePart :
  Z -> string -> File R -> File R * option error.
Variable addSheetNameSpace : string -> NameSpace -> File R -> File R.
Variable SourceRelationshipChart : string.
Variable SourceRelationship : NameSpace.

(** [AddChart]. [&opts.Format] is handed over as the address of the
    chart it lies in. The result is [None] where [getChartOptions] is. *)
Definition AddChart (sheet cell : string) (chart : option nat)
    (combo : list (option nat)) (st : File R * Heap)
  : option (File R * Heap * option error) :=
  let '(f, h) := st in
  let '(f, (ws, err)) := workSheetReader sheet f in
  match err with
  | Some e => Some (f, h, Some e)
  | None =>
    '(h, (opts, comboCharts, err)) ← getChartOptions chart combo h;
    match err with
    | Some e => Some (f, h, Some e)
    | None =>
      let '(f, n) := countDrawings f in
      let drawingID := n + 1 in
      let chartID := countCharts f + 1 in
      let drawingXML := "xl/drawings/drawing" +:+ Itoa drawingID +:+ ".xml" in
      let '(f, (drawingID, drawingXML)) :=
        prepareDrawing ws drawingID sheet drawingXML f in
      let drawingRels :=
        "xl/drawings/_rels/drawing" +:+ Itoa drawingID +:+ ".xml.rels" in
      let '(f, drawingRID) :=
        addRels drawingRels SourceRelationshipChart
                ("../charts/chart" +:+ Itoa chartID +:+ ".xml") "" f in
      a ← opts;
      c ← charts h !! a;
      let '(f, h, err) :=
        addDrawingChart sheet drawingXML cell
                        (intOfUint (Width (Dimension c)))
                        (intOfUint (Height (Dimension c)))
                        drawingRID a (f, h) in
      match err with
      | Some e => Some (f, h, Some e)
      | None =>
        let '(f, h) := addChart opts comboCharts (f, h) in
        let '(f, err) := addContentTypePart chartID "chart" f in
        match err with
        | Some e => Some (f, h, Some e)
        | None =>
          let '(f, _) := addContentTypePart drawingID "drawings" f in
          let f := addSheetNameSpace sheet SourceRelationship f in
          Some (f, h, err)
        end
      end
    end
  end.

End AddChart.

(** A document for the examples: no part, one worksheet named Sheet1, and
    collaborators that leave the document as it is. Resolving any other
    sheet name fails. *)
Definition demoFile : File unit := mkFile ∅ tt.

Definition demoWorkSheetReader (sheet : string) (f : File unit)
  : File unit * (option unit * option error) :=
  if String.eqb sheet "Sheet1" then (f, (Some tt, None))
  else (f, (None,
            Some (ErrCollaborator ("sheet " +:+ sheet +:+ " does not exist")))).

Definition demoAddChart (sheet cell : string) (chart : option nat)
    (combo : list (option nat)) (st : File unit * Heap)
  : option (File unit * Heap * option error) :=
  AddChart demoWorkSheetReader
    (fun f => (f, 0))
    (fun _ drawingID _ drawingXML f => (f, (drawingID, drawingXML)))
    (fun _ _ _ _ f => (f, 1))
    (fun _ _ _ _ _ _ _ st => (st, None))
    (fun _ _ st => st)
    (fun _ _ f => (f, None))
    (fun _ (_ : unit) f => f)
    "chart" tt
    sheet cell chart combo st.

End Assembly.

(** ** Charts with nothing left to default *)

Module ChartsNotions.
Import Charts.

(** A chart is at rest, for the fonts [fs], when none of the fields that
    [parseChartOptions] tests is at its zero value and every run of the
    title is at rest. *)
Definition chartAtRest (fs : list Font) (c : Chart) : Prop :=
  Width (Dimension c) <> 0 /\
  Height (Dimension c) <> 0 /\
  PrintObject (Format c) <> None /\
  Locked (Format c) <> None /\
  PrimFloat.eqb (ScaleX (Format c)) 0 = false /\
  PrimFloat.eqb (ScaleY (Format c)) 0 = false /\
  Position (Legend c) <> "" /\
  Forall (runAtRest fs) (Title c) /\
  VaryColors c <> None /\
  ShowBlanksAs c <> "".

(** The pointers of a list that are not [nil] point to charts at rest. *)
Definition allAtRest (h : Heap) (ps : list (option nat)) : Prop :=
  Forall (fun p => forall b, p = Some b ->
            exists c, charts h !! b = Some c /\ chartAtRest (fonts h) c) ps.

End ChartsNotions.

(** ** The other lookup tables of [chart.go] *)

Module Tables.
Import Charts.

(** Each table is a Go map literal: a lookup of a missing key gives the
    zero value of the value type. *)

(** 3D rotation about the X axis, by chart type. *)
Definition chartView3DRotX : gmap Z Z :=
  list_to_map
    [ (Area, 0);
      (AreaStacked, 0);
      (AreaPercentStacked, 0);
      (Area3D, 15);
      (Area3DStacked, 15);
      (Area3DPercentStacked, 15);
      (Bar, 0);
      (BarStacked, 0);
      (BarPercentStacked, 0);
      (Bar3DClustered, 15);
      (Bar3DStacked, 15);
      (Bar3DPercentStacked, 15);
      (Bar3DConeClustered, 15);
      (Bar3DConeStacked, 15);
      (Bar3DConePercentStacked, 15);
      (Bar3DPyramidClustered, 15);
      (Bar3DPyramidStacked, 15);
      (Bar3DPyramidPercentStacked, 15);
      (Bar3DCylinderClustered, 15);
      (Bar3DCylinderStacked, 15);
      (Bar3DCylinderPercentStacked, 15);
      (Col, 0);
      (ColStacked, 0);
      (ColPercentStacked, 0);
      (Col3D, 15);
      (Col3DClustered, 15);
      (Col3DStacked, 15);
      (Col3DPercentStacked, 15);
      (Col3DCone, 15);
      (Col3DConeClustered, 15);
      (Col3DConeStacked, 15);
      (Col3DConePercentStacked, 15);
      (Col3DPyramid, 15);
      (Col3DPyramidClustered, 15);
      (Col3DPyramidStacked, 15);
      (Col3DPyramidPercentStacked, 15);
      (Col3DCylinder, 15);
      (Col3DCylinderClustered, 15);
      (Col3DCylinderStacked, 15);
      (Col3DCylinderPercentStacked, 15);
      (Doughnut, 0);
      (Line, 0);
      (Line3D, 20);
      (Pie, 0);
      (Pie3D, 30);
      (PieOfPie, 0);
      (BarOfPie, 0);
      (Radar, 0);
      (Scatter, 0);
      (Surface3D, 15);
      (WireframeSurface3D, 15);
      (Contour, 90);
      (WireframeContour, 90) ].

(** 3D rotation about the Y axis, by chart type. *)
Definition chartView3DRotY : gmap Z Z :=
  list_to_map
    [ (Area, 0);
      (AreaStacked, 0);
      (AreaPercentStacked, 0);
      (Area3D, 20);
      (Area3DStacked, 20);
      (Area3DPercentStacked, 20);
      (Bar, 0);
      (BarStacked, 0);
      (BarPercentStacked, 0);
      (Bar3DClustered, 20);
      (Bar3DStacked, 20);
      (Bar3DPercentStacked, 20);
      (Bar3DConeClustered, 20);
      (Bar3DConeStacked, 20);
      (Bar3DConePercentStacked, 20);
      (Bar3DPyramidClustered, 20);
      (Bar3DPyramidStacked, 20);
      (Bar3DPyramidPercentStacked, 20);
      (Bar3DCylinderClustered, 20);
      (Bar3DCylinderStacked, 20);
      (Bar3DCylinderPercentStacked, 20);
      (Col, 0);
      (ColStacked, 0);
      (ColPercentStacked, 0);
      (Col3D, 20);
      (Col3DClustered, 20);
      (Col3DStacked, 20);
      (Col3DPercentStacked, 20);
      (Col3DCone, 20);
      (Col3DConeClustered, 20);
      (Col3DConeStacked, 20);
      (Col3DConePercentStacked, 20);
      (Col3DPyramid, 20);
      (Col3DPyramidClustered, 20);
      (Col3DPyramidStacked, 20);
      (Col3DPyramidPercentStacked, 20);
      (Col3DCylinder, 20);
      (Col3DCylinderClustered, 20);
      (Col3DCylinderStacked, 20);
      (Col3DCylinderPercentStacked, 20);
      (Doughnut, 0);
      (Line, 0);
      (Line3D, 15);
      (Pie, 0);
      (Pie3D, 0);
      (PieOfPie, 0);
      (BarOfPie, 0);
      (Radar, 0);
      (Scatter, 0);
      (Surface3D, 20);
      (WireframeSurface3D, 20);
      (Contour, 0);
      (WireframeContour, 0) ].

(** Overlap of the plot area, for the stacked 2D bar and column charts. *)
Definition plotAreaChartOverlap : gmap Z Z :=
  list_to_map
    [ (BarStacked, 100);
      (BarPercentStacked, 100);
      (ColStacked, 100);
      (ColPercentStacked, 100) ].

(** 3D perspective, by chart type. *)
Definition chartView3DPerspective : gmap Z Z :=
  list_to_map
    [ (Line3D, 30);
      (Contour, 0);
      (WireframeContour, 0) ].

(** Right-angle axes, by chart type. *)
Definition chartView3DRAngAx : gmap Z Z :=
  list_to_map
    [ (Area, 0);
      (AreaStacked, 0);
      (AreaPercentStacked, 0);
      (Area3D, 1);
      (Area3DStacked, 1);
      (Area3DPercentStacked, 1);
      (Bar, 0);
      (BarStacked, 0);
      (BarPercentStacked, 0);
      (Bar3DClustered, 1);
      (Bar3DStacked, 1);
      (Bar3DPercentStacked, 1);
      (Bar3DConeClustered, 1);
      (Bar3DConeStacked, 1);
      (Bar3DConePercentStacked, 1);
      (Bar3DPyramidClustered, 1);
      (Bar3DPyramidStacked, 1);
      (Bar3DPyramidPercentStacked, 1);
      (Bar3DCylinderClustered, 1);
      (Bar3DCylinderStacked, 1);
      (Bar3DCylinderPercentStacked, 1);
      (Col, 0);
      (ColStacked, 0);
      (ColPercentStacked, 0);
      (Col3D, 1);
      (Col3DClustered, 1);
      (Col3DStacked, 1);
      (Col3DPercentStacked, 1);
      (Col3DCone, 1);
      (Col3DConeClustered, 1);
      (Col3DConeStacked, 1);
      (Col3DConePercentStacked, 1);
      (Col3DPyramid, 1);
      (Col3DPyramidClustered, 1);
      (Col3DPyramidStacked, 1);
      (Col3DPyramidPercentStacked, 1);
      (Col3DCylinder, 1);
      (Col3DCylinderClustered, 1);
      (Col3DCylinderStacked, 1);
      (Col3DCylinderPercentStacked, 1);
      (Doughnut, 0);
      (Line, 0);
      (Line3D, 0);
      (Pie, 0);
      (Pie3D, 0);
      (PieOfPie, 0);
      (BarOfPie, 0);
      (Radar, 0);
      (Scatter, 0);
      (Surface3D, 0);
      (WireframeSurface3D, 0);
      (Contour, 0);
      (Bubble, 0);
      (Bubble3D, 0) ].

(** The keyword of a legend position. *)
Definition chartLegendPosition : gmap string string :=
  list_to_map
    [ ("bottom", "b");
      ("left", "l");
      ("right", "r");
      ("top", "t");
      ("top_right", "tr") ].

(** How the value axis crosses the category axis, by chart type. *)
Definition chartValAxCrossBetween : gmap Z string :=
  list_to_map
    [ (Area, "midCat");
      (AreaStacked, "midCat");
      (AreaPercentStacked, "midCat");
      (Area3D, "midCat");
      (Area3DStacked, "midCat");
      (Area3DPercentStacked, "midCat");
      (Bar, "between");
      (BarStacked, "between");
      (BarPercentStacked, "between");
      (Bar3DClustered, "between");
      (Bar3DStacked, "between");
      (Bar3DPercentStacked, "between");
      (Bar3DConeClustered, "between");
      (Bar3DConeStacked, "between");
      (Bar3DConePercentStacked, "between");
      (Bar3DPyramidClustered, "between");
      (Bar3DPyramidStacked, "between");
      (Bar3DPyramidPercentStacked, "between");
      (Bar3DCylinderClustered, "between");
      (Bar3DCylinderStacked, "between");
      (Bar3DCylinderPercentStacked, "between");
      (Col, "between");
      (ColStacked, "between");
      (ColPercentStacked, "between");
      (Col3D, "between");
      (Col3DClustered, "between");
      (Col3DStacked, "between");
      (Col3DPercentStacked, "between");
      (Col3DCone, "between");
      (Col3DConeClustered, "between");
      (Col3DConeStacked, "between");
      (Col3DConePercentStacked, "between");
      (Col3DPyramid, "between");
      (Col3DPyramidClustered, "between");
      (Col3DPyramidStacked, "between");
      (Col3DPyramidPercentStacked, "between");
      (Col3DCylinder, "between");
      (Col3DCylinderClustered, "between");
      (Col3DCylinderStacked, "between");
      (Col3DCylinderPercentStacked, "between");
      (Doughnut, "between");
      (Line, "between");
      (Line3D, "between");
      (Pie, "between");
      (Pie3D, "between");
      (PieOfPie, "between");
      (BarOfPie, "between");
      (Radar, "between");
      (Scatter, "between");
      (Surface3D, "midCat");
      (WireframeSurface3D, "midCat");
      (Contour, "midCat");
      (WireframeContour, "midCat");
      (Bubble, "midCat");
      (Bubble3D, "midCat") ].

(** Grouping of the plot area, by chart type. *)
Definition plotAreaChartGrouping : gmap Z string :=
  list_to_map
    [ (Area, "standard");
      (AreaStacked, "stacked");
      (AreaPercentStacked, "percentStacked");
      (Area3D, "standard");
      (Area3DStacked, "stacked");
      (Area3DPercentStacked, "percentStacked");
      (Bar, "clustered");
      (BarStacked, "stacked");
      (BarPercentStacked, "percentStacked");
      (Bar3DClustered, "clustered");
      (Bar3DStacked, "stacked");
      (Bar3DPercentStacked, "percentStacked");
      (Bar3DConeClustered, "clustered");
      (Bar3DConeStacked, "stacked");
      (Bar3DConePercentStacked, "percentStacked");
      (Bar3DPyramidClustered, "clustered");
      (Bar3DPyramidStacked, "stacked");
      (Bar3DPyramidPercentStacked, "percentStacked");
      (Bar3DCylinderClustered, "clustered");
      (Bar3DCylinderStacked, "stacked");
      (Bar3DCylinderPercentStacked, "percentStacked");
      (Col, "clustered");
      (ColStacked, "stacked");
      (ColPercentStacked, "percentStacked");
      (Col3D, "standard");
      (Col3DClustered, "clustered");
      (Col3DStacked, "stacked");
      (Col3DPercentStacked, "percentStacked");
      (Col3DCone, "standard");
      (Col3DConeClustered, "clustered");
      (Col3DConeStacked, "stacked");
      (Col3DConePercentStacked, "percentStacked");
      (Col3DPyramid, "standard");
      (Col3DPyramidClustered, "clustered");
      (Col3DPyramidStacked, "stacked");
      (Col3DPyramidPercentStacked, "percentStacked");
      (Col3DCylinder, "standard");
      (Col3DCylinderClustered, "clustered");
      (Col3DCylinderStacked, "stacked");
      (Col3DCylinderPercentStacked, "percentStacked");
      (Line, "standard");
      (Line3D, "standard") ].

(** Bar direction of the plot area, by chart type. *)
Definition plotAreaChartBarDir : gmap Z string :=
  list_to_map
    [ (Bar, "bar");
      (BarStacked, "bar");
      (BarPercentStacked, "bar");
      (Bar3DClustered, "bar");
      (Bar3DStacked, "bar");
      (Bar3DPercentStacked, "bar");
      (Bar3DConeClustered, "bar");
      (Bar3DConeStacked, "bar");
      (Bar3DConePercentStacked, "bar");
      (Bar3DPyramidClustered, "bar");
      (Bar3DPyramidStacked, "bar");
      (Bar3DPyramidPercentStacked, "bar");
      (Bar3DCylinderClustered, "bar");
      (Bar3DCylinderStacked, "bar");
      (Bar3DCylinderPercentStacked, "bar");
      (Col, "col");
      (ColStacked, "col");
      (ColPercentStacked, "col");
      (Col3D, "col");
      (Col3DClustered, "col");
      (Col3DStacked, "col");
      (Col3DPercentStacked, "col");
      (Col3DCone, "col");
      (Col3DConeStacked, "col");
      (Col3DConeClustered, "col");
      (Col3DConePercentStacked, "col");
      (Col3DPyramid, "col");
      (Col3DPyramidClustered, "col");
      (Col3DPyramidStacked, "col");
      (Col3DPyramidPercentStacked, "col");
      (Col3DCylinder, "col");
      (Col3DCylinderClustered, "col");
      (Col3DCylinderStacked, "col");
      (Col3DCylinderPercentStacked, "col");
      (Line, "standard");
      (Line3D, "standard") ].

(** Axis orientation, by the reverse-order flag. *)
Definition orientation : gmap bool string :=
  list_to_map
    [ (true, "maxMin");
      (false, "minMax") ].

(** Position of the category axis. *)
Definition catAxPos : gmap bool string :=
  list_to_map
    [ (true, "t");
      (false, "b") ].

(** Position of the value axis. *)
Definition valAxPos : gmap bool string :=
  list_to_map
    [ (true, "r");
      (false, "l") ].

(** Tick label position of the value axis, for the contour charts. *)
Definition valTickLblPos : gmap Z string :=
  list_to_map
    [ (Contour, "none");
      (WireframeContour, "none") ].

End Tables.

(** ** Data validations of a worksheet *)

Module Worksheet.

(** Modelled from the spec: the declarations of [xlsxWorksheet] and
    [xlsxDataValidations] are outside the sources. The records have the
    fields [AddDataValidation] touches: the stored count and the list of
    rules, each a [*DataValidation] (an address, or [nil]); a worksheet
    has its validations or none ([nil]). [DataValidation_] stands for the
    Go field [DataValidation]. *)
Record xlsxDataValidations := mkDataValidations {
  Count : Z;
  DataValidation_ : list (option nat)
}.

Record xlsxWorksheet := mkWorksheet {
  DataValidations : option xlsxDataValidations
}.

(** [AddDataValidation], on the worksheet that [f.workSheetReader(sheet)]
    gives (the reader is outside the sources): a worksheet without
    validations gets an empty [xlsxDataValidations], the rule is appended
    and the count is set to the length of the list. *)
Definition AddDataValidation (dv : option nat) (xlsx : xlsxWorksheet)
  : xlsxWorksheet :=
  let dvs :=
    match DataValidations xlsx with
    | None => {| Count := 0; DataValidation_ := [] |}
    | Some dvs => dvs
    end in
  let rules := DataValidation_ dvs ++ [dv] in
  {| DataValidations :=
       Some {| Count := Z.of_nat (length rules);
               DataValidation_ := rules |} |}.

(** The rules of a worksheet, none when it has no validations. *)
Definition rulesOf (xlsx : xlsxWorksheet) : list (option nat) :=
  match DataValidations xlsx with
  | None => []
  | Some dvs => DataValidation_ dvs
  end.

End Worksheet.

(** ** Chart sheets and the removal of charts *)

Module Sheets.
Import Charts Assembly.

(** Arithmetic of Go's [int] on 64 bits: the result wraps around. *)
Definition wrapInt (n : Z) : Z := (n + 2 ^ 63) mod 2 ^ 64 - 2 ^ 63.

(** [strings.ReplaceAll] for a non-empty [old]: the occurrences of [old]
    are replaced from left to right, an occurrence starting only after the
    end of the one before. [skip] counts the bytes of the current
    occurrence still to pass over. (For an empty [old], which the sources
    never give, Go inserts [new] around every character; the model leaves
    the string as it is.) *)
Fixpoint replaceFrom (old new : string) (skip : nat) (s : string) : string :=
  match s with
  | EmptyString => EmptyString
  | String c rest =>
      match skip with
      | S k => replaceFrom old new k rest
      | O =>
          if String.prefix old s
          then new +:+ replaceFrom old new (String.length old - 1) rest
          else String c (replaceFrom old new 0 rest)
      end
  end.

Definition ReplaceAll (s old new : string) : string :=
  if String.eqb old "" then s else replaceFrom old new 0 s.

(** Modelled from the spec: the declaration of [xlsxSheet], an entry of
    the sheet list of the workbook, is outside the sources; [AddChartSheet]
    reads its [SheetID]. *)
Record xlsxSheet := mkSheet {
  Name : string;
  SheetID : Z
}.

(** Modelled from the spec: the declarations of [xlsxChartsheet] and
    [xlsxChartsheetView] are outside the sources. A chart sheet has its
    views, of which [AddChartSheet] sets the zoom scale and the
    zoom-to-fit flag, and other fields [csOther], all at their zero value
    in [AddChartSheet]. *)
Record xlsxChartsheetView := mkChartsheetView {
  ZoomScaleAttr : Z;
  ZoomToFitAttr : bool
}.

Record xlsxChartsheet (C : Type) := mkChartsheet {
  SheetViews : list xlsxChartsheetView;
  csOther : C
}.
Arguments mkChartsheet {C} _ _.
Arguments SheetViews {C} _.
Arguments csOther {C} _.

(** The fields of [File] that [AddChartSheet] writes itself: the number of
    sheets, the map from sheet names to paths, and the loaded sheets by
    path ([nil] for one not loaded). They are the part of the document
    next to the package parts, with whatever else the document has. *)
Record SheetState (W R : Type) := mkSheetState {
  SheetCount : Z;
  sheetMap : gmap string string;
  Sheet : gmap string (option W);
  Rest : R
}.
Arguments mkSheetState {W R} _ _ _ _.
Arguments SheetCount {W R} _.
Arguments sheetMap {W R} _.
Arguments Sheet {W R} _.
Arguments Rest {W R} _.

(** The loop of [AddChartSheet] over the sheets of the workbook: the
    greatest sheet ID, 0 when there is none above 0. *)
Definition maxSheetID (sheets : list xlsxSheet) : Z :=
  fold_left (fun sheetID v => if sheetID <? SheetID v then SheetID v
                              else sheetID)
            sheets 0.

(** [f.SheetCount++], [f.sheetMap[sheet] = path] and
    [f.Sheet.Store(path, nil)]. *)
Definition incrSheetCount {W R} (f : File (SheetState W R))
  : File (SheetState W R) :=
  mkFile (Pkg f)
         (mkSheetState (wrapInt (SheetCount (Other f) + 1))
                       (sheetMap (Other f)) (Sheet (Other f))
                       (Rest (Other f))).

Definition registerSheet {W R} (sheet path : string)
    (f : File (SheetState W R)) : File (SheetState W R) :=
  mkFile (Pkg f)
         (mkSheetState (SheetCount (Other f))
                       (<[sheet := path]> (sheetMap (Other f)))
                       (<[path := None]> (Sheet (Other f)))
                       (Rest (Other f))).

Section AddChartSheet.

(** The collaborators of [AddChartSheet] and the constants it names are
    declared outside the sources: each is a parameter, as for
    [AddChart]. *)
Context {W R NameSpace C : Type}.
Abbreviation Doc := (File (SheetState W R)).
Variable GetSheetIndex : string -> Doc -> Doc * (Z * option error).
Variable workbookReader :
  Doc -> Doc * (option (list xlsxSheet) * option error).
Variable countDrawings : Doc -> Doc * Z.
Variable prepareChartSheetDrawing :
  xlsxChartsheet C -> Z -> string -> Doc -> Doc * xlsxChartsheet C.
Variable addRels :
  string -> string -> string -> string -> Doc -> Doc * Z.
Variable addSheetDrawingChart :
  string -> Z -> nat -> Doc * Heap -> Doc * Heap * option error.
Variable addChart :
  option nat -> list (option nat) -> Doc * Heap -> Doc * Heap.
Variable addContentTypePart : Z -> string -> Doc -> Doc * option error.
Variable getWorkbookRelsPath : Doc -> Doc * string.
Variable setWorkbook : string -> Z -> Z -> Doc -> Doc.
Variable xmlMarshal : xlsxChartsheet C -> string * option error.
Variable addSheetNameSpace : string -> NameSpace -> Doc -> Doc.
Variable replaceNameSpaceBytes : string -> string -> Doc -> Doc * string.
Variable replaceRelationshipsBytes : string -> string.
Variable saveFileList : string -> string -> Doc -> Doc.
Variable ErrExistsSheet : error.
Variable SourceRelationshipChart : string.
Variable SourceRelationshipChartsheet : string.
Variable NameSpaceSpreadSheet : NameSpace.
Variable csZero : C.

(** [AddChartSheet]. The result is [None] for a panic: the workbook reader
    gave [nil], or [getChartOptions] is [None]. *)
Definition AddChartSheet (sheet : string) (chart : option nat)
    (combo : list (option nat)) (st : Doc * Heap)
  : option (Doc * Heap * option error) :=
  let '(f, h) := st in
  let '(f, (idx, err)) := GetSheetIndex sheet f in
  match err with
  | Some e => Some (f, h, Some e)
  | None =>
    if negb (idx =? -1) then Some (f, h, Some ErrExistsSheet)
    else
      '(h, (opts, comboCharts, err)) ← getChartOptions chart combo h;
      match err with
      | Some e => Some (f, h, Some e)
      | None =>
        let cs :=
          mkChartsheet [ {| ZoomScaleAttr := 100; ZoomToFitAttr := true |} ]
                       csZero in
        let f := incrSheetCount f in
        let '(f, (wb, _)) := workbookReader f in
        sheets ← wb;
        let sheetID := wrapInt (maxSheetID sheets + 1) in
        let path := "xl/chartsheets/sheet" +:+ Itoa sheetID +:+ ".xml" in
        let f := registerSheet sheet path f in
        let '(f, n) := countDrawings f in
        let drawingID := wrapInt (n + 1) in
        let chartID := wrapInt (countCharts f + 1) in
        let drawingXML :=
          "xl/drawings/drawing" +:+ Itoa drawingID +:+ ".xml" in
        let '(f, cs) := prepareChartSheetDrawing cs drawingID sheet f in
        let drawingRels :=
          "xl/drawings/_rels/drawing" +:+ Itoa drawingID +:+ ".xml.rels" in
        let '(f, drawingRID) :=
          addRels drawingRels SourceRelationshipChart
                  ("../charts/chart" +:+ Itoa chartID +:+ ".xml") "" f in
        a ← opts;
        let '(f, h, err) :=
          addSheetDrawingChart drawingXML drawingRID a (f, h) in
        match err with
        | Some e => Some (f, h, Some e)
        | None =>
          let '(f, h) := addChart opts comboCharts (f, h) in
          let '(f, err) := addContentTypePart chartID "chart" f in
          match err with
          | Some e => Some (f, h, Some e)
          | None =>
            let '(f, _) := addContentTypePart sheetID "chartsheet" f in
            let '(f, _) := addContentTypePart drawingID "drawings" f in
            let '(f, relsPath) := getWorkbookRelsPath f in
            let '(f, rID) :=
              addRels relsPath SourceRelationshipChartsheet
                      ("/xl/chartsheets/sheet" +:+ Itoa sheetID +:+ ".xml")
                      "" f in
            let f := setWorkbook sheet sheetID rID f in
            let '(chartsheet, _) := xmlMarshal cs in
            let f := addSheetNameSpace sheet NameSpaceSpreadSheet f in
            let '(f, bytes) := replaceNameSpaceBytes path chartsheet f in
            let f := saveFileList path (replaceRelationshipsBytes bytes) f in
            Some (f, h, err)
          end
        end
      end
  end.

End AddChartSheet.

(** Modelled from the spec: the declaration of [xlsxDrawing], the
    reference of a worksheet to its drawing part, is outside the sources;
    [DeleteChart] reads its relationship ID. *)
Record xlsxDrawing := mkDrawing {
  RID : string
}.

Section DeleteChart.

(** The collaborators of [DeleteChart], parameters as above. [Drawing] is
    the field [ws.Drawing] of a worksheet of the document, [nil] when the
    worksheet has no drawing part. *)
Context {R Worksheet : Type}.
Variable CellNameToCoordinates : string -> Z * Z * option error.
Variable workSheetReader :
  string -> File R -> File R * (option Worksheet * option error).
Variable Drawing : Worksheet -> File R -> option xlsxDrawing.
Variable getSheetRelationshipsTargetByID :
  string -> string -> File R -> File R * string.
Variable deleteDrawing :
  Z -> Z -> string -> string -> File R -> File R * option error.

(** [DeleteChart]. The result is [None] for a panic: the reader gave a
    [nil] worksheet and no error. *)
Definition DeleteChart (sheet cell : string) (f : File R)
  : option (File R * option error) :=
  let '(col, row, err) := CellNameToCoordinates cell in
  match err with
  | Some e => Some (f, Some e)
  | None =>
    let col := wrapInt (col - 1) in
    let row := wrapInt (row - 1) in
    let '(f, (ws, err)) := workSheetReader sheet f in
    match err with
    | Some e => Some (f, Some e)
    | None =>
      ws ← ws;
      match Drawing ws f with
      | None => Some (f, err)
      | Some drawing =>
        let '(f, target) :=
          getSheetRelationshipsTargetByID sheet (RID drawing) f in
        let drawingXML := ReplaceAll target ".." "xl" in
        Some (deleteDrawing col row drawingXML "Chart" f)
      end
    end
  end.

End DeleteChart.

End Sheets.

(** ** Documents and collaborators for the examples *)

Module Demos.
Import Charts Assembly Sheets.

(** [demoAddChart] with a registration of content types that fails for the
    drawings. *)
Definition demoAddChartDrawingsFail (sheet cell : string)
    (chart : option nat) (combo : list (option nat))
    (st : File unit * Heap)
  : option (File unit * Heap * option error) :=
  AddChart demoWorkSheetReader
    (fun f => (f, 0))
    (fun _ drawingID _ drawingXML f => (f, (drawingID, drawingXML)))
    (fun _ _ _ _ f => (f, 1))
    (fun _ _ _ _ _ _ _ st => (st, None))
    (fun _ _ st => st)
    (fun _ contentType f =>
       (f, if String.eqb contentType "drawings"
           then Some (ErrCollaborator "content type not registered")
           else None))
    (fun _ (_ : unit) f => f)
    "chart" tt
    sheet cell chart combo st.

(** A document with one worksheet, Sheet1, whose sheet ID is 1; a sheet
    name has the index 0 when the map of sheets has it and -1 otherwise;
    saving a file stores the part. *)
Definition demoDoc : File (SheetState unit unit) :=
  mkFile ∅ (mkSheetState 1 {[ "Sheet1" := "xl/worksheets/sheet1.xml" ]} ∅ tt).

Definition demoGetSheetIndex (sheet : string)
    (f : File (SheetState unit unit))
  : File (SheetState unit unit) * (Z * option error) :=
  (f, (if decide (is_Some (sheetMap (Other f) !! sheet)) then 0 else -1,
       None)).

Definition demoErrExistsSheet : error :=
  ErrCollaborator "the same name sheet already exists".

Definition demoAddChartSheet (sheet : string) (chart : option nat)
    (combo : list (option nat)) (st : File (SheetState unit unit) * Heap)
  : option (File (SheetState unit unit) * Heap * option error) :=
  AddChartSheet demoGetSheetIndex
    (fun f => (f, (Some [ {| Name := "Sheet1"; SheetID := 1 |} ], None)))
    (fun f => (f, 0))
    (fun cs _ _ f => (f, cs))
    (fun _ _ _ _ f => (f, 1))
    (fun _ _ _ st => (st, None))
    (fun _ _ st => st)
    (fun _ _ f => (f, None))
    (fun f => (f, "xl/_rels/workbook.xml.rels"))
    (fun _ _ _ f => f)
    (fun _ => ("<chartsheet/>", None))
    (fun _ (_ : unit) f => f)
    (fun _ bytes f => (f, bytes))
    (fun bytes => bytes)
    (fun path content f => mkFile (<[path := content]> (Pkg f)) (Other f))
    demoErrExistsSheet "chart" "chartsheet" tt tt
    sheet chart combo st.

(** Cell names: only E1, column 5 of row 1, is known. The worksheet has,
    or has not, a drawing with the relationship rId1, whose target is the
    first drawing part; deleting a drawing records, under the path of the
    drawing part it was given, the kind it was asked to delete. *)
Definition demoCellNameToCoordinates (cell : string) : Z * Z * option error :=
  if String.eqb cell "E1" then (5, 1, None)
  else (0, 0, Some (ErrCollaborator "invalid cell name")).

Definition demoDeleteChart (withDrawing : bool) (sheet cell : string)
    (f : File unit) : option (File unit * option error) :=
  DeleteChart demoCellNameToCoordinates demoWorkSheetReader
    (fun _ _ => if withDrawing then Some {| RID := "rId1" |} else None)
    (fun _ _ f => (f, "../drawings/drawing1.xml"))
    (fun _ _ drawingXML kind f =>
       (mkFile (<[drawingXML := kind]> (Pkg f)) (Other f), None))
    sheet cell f.

End Demos.

(** * Properties of the data-validation builder *)

Module ValidationTheory.
Import Validation.

(** [Join] is the library's [String.concat] with the arguments swapped. *)
Lemma Join_concat (elems : list string) (sep : string) :
  Join elems sep = String.concat sep elems.
Proof.
  induction elems as [|s rest IH]; [reflexivity|].
  destruct rest as [|s' rest']; [reflexivity|].
  cbn [Join String.concat] in *. by rewrite IH.
Qed.

Lemma len_append (s1 s2 : string) : len (s1 +:+ s2) = len s1 + len s2.
Proof.
  unfold len. induction s1 as [|c s1 IH].
  - change ("" +:+ s2) with s2. cbn [String.length]. lia.
  - change (String c s1 +:+ s2) with (String c (s1 +:+ s2)).
    cbn [String.length]. rewrite !Nat2Z.inj_succ. lia.
Qed.

Example Itoa_examples : Itoa 10 = "10" /\ Itoa (-7) = "-7" /\ Itoa 0 = "0".
Proof. repeat split. Qed.

Example Join_examples :
  Join [] "," = "" /\ Join ["a"] "," = "a" /\
  Join ["a"; "b"; "c"] "," = "a,b,c".
Proof. repeat split. Qed.

(** A key that the map literal does not have gives the empty string. *)
Example convDataValidationType_examples :
  convDataValidationType typeList = "list" /\
  convDataValidationType DataValidationTypeTextLeng = "textLength" /\
  convDataValidationType 0 = "" /\
  convDataValidationOperatior DataValidationOperatorNotEqual = "notEqual" /\
  convDataValidationOperatior 9 = "".
Proof. repeat split. Qed.

(** The length test of [SetRange], as a proposition on the rule. *)
Lemma SetRange_test (dd : DataValidation) :
  (dataValidationFormulaStrLen <? len (Formula1 dd))
  || (dataValidationFormulaStrLen <? len (Formula2 dd)) = true
  <-> ~ formulasWithinLimit dd.
Proof.
  unfold formulasWithinLimit.
  rewrite orb_true_iff, !Z.ltb_lt. lia.
Qed.

Lemma SetRange_too_long f1 f2 t o (dd : DataValidation) :
  ~ formulasWithinLimit dd ->
  SetRange f1 f2 t o dd = (dd, Some dataValidationFormulaStrLenErr).
Proof.
  intros H. apply SetRange_test in H. unfold SetRange. by rewrite H.
Qed.

Lemma SetRange_within f1 f2 t o (dd : DataValidation) :
  formulasWithinLimit dd ->
  snd (SetRange f1 f2 t o dd) = None /\
  Formula1 (fst (SetRange f1 f2 t o dd)) = Itoa f1 /\
  Formula2 (fst (SetRange f1 f2 t o dd)) = Itoa f2 /\
  Type_ (fst (SetRange f1 f2 t o dd)) = convDataValidationType t /\
  Operator (fst (SetRange f1 f2 t o dd)) = convDataValidationOperatior o.
Proof.
  intros H. unfold SetRange.
  destruct (_ || _) eqn:E; [|done].
  apply SetRange_test in E. contradiction.
Qed.

(** C3: the 257-byte limit on the formulas (255 characters and 2 quotes) is
    not kept by the builder. On a fresh rule, which is within the limit,
    [SetDropList] with one key of 256 bytes returns no error and leaves a
    first formula of 258 bytes; the same holds when the call is run as a
    chain of builder operations. *)
Theorem SetDropList_unchecked_length :
  let dd := NewDataValidation true in
  let r := SetDropList [repeatByte 256 "a"%char] dd in
  formulasWithinLimit dd /\
  snd r = None /\
  len (Formula1 (fst r)) = 258 /\
  ~ formulasWithinLimit (fst r) /\
  applyOps [OpSetDropList [repeatByte 256 "a"%char]] dd = (fst r, [None]).
Proof.
  cbv zeta. split; [|split; [|split; [|split]]].
  - split; vm_compute; discriminate.
  - reflexivity.
  - vm_compute. reflexivity.
  - intros [H _]. vm_compute in H. by apply H.
  - reflexivity.
Qed.

(** C4: [SetRange] returns the length error exactly when the first or the
    second formula of the rule, as it is before the call, is longer than
    257 bytes, and returns no error exactly otherwise; whether it fails
    does not depend on the bounds, type and operator given. When it
    succeeds the formulas are the decimal numerals of the bounds and the
    type and operator are their keywords. On a fresh rule
    [SetRange(10, 20, DataValidationTypeWhole, DataValidationOperatorBetween)]
    gives the formulas 10 and 20, the type whole and the operator
    between. *)
Theorem SetRange_checks_prior_formulas (f1 f2 t o : Z) (dd : DataValidation) :
  dataValidationFormulaStrLen = 257 /\
  (snd (SetRange f1 f2 t o dd) = Some dataValidationFormulaStrLenErr <->
   257 < len (Formula1 dd) \/ 257 < len (Formula2 dd)) /\
  (snd (SetRange f1 f2 t o dd) = None <->
   ~ (257 < len (Formula1 dd) \/ 257 < len (Formula2 dd))) /\
  (forall g1 g2 t' o',
     snd (SetRange g1 g2 t' o' dd) = snd (SetRange f1 f2 t o dd)) /\
  (snd (SetRange f1 f2 t o dd) = None ->
   Formula1 (fst (SetRange f1 f2 t o dd)) = Itoa f1 /\
   Formula2 (fst (SetRange f1 f2 t o dd)) = Itoa f2 /\
   Type_ (fst (SetRange f1 f2 t o dd)) = convDataValidationType t /\
   Operator (fst (SetRange f1 f2 t o dd)) = convDataValidationOperatior o) /\
  (forall allowBlank,
     let r := SetRange 10 20 DataValidationTypeWhole
                       DataValidationOperatorBetween
                       (NewDataValidation allowBlank) in
     snd r = None /\ Formula1 (fst r) = "10" /\ Formula2 (fst r) = "20" /\
     Type_ (fst r) = "whole" /\ Operator (fst r) = "between").
Proof.
  assert (Hlim : formulasWithinLimit dd <->
                 ~ (257 < len (Formula1 dd) \/ 257 < len (Formula2 dd))).
  { unfold formulasWithinLimit, dataValidationFormulaStrLen. lia. }
  split; [reflexivity|].
  destruct (decide (257 < len (Formula1 dd) \/ 257 < len (Formula2 dd)))
    as [Hlong|Hshort].
  - assert (Hno : ~ formulasWithinLimit dd) by (rewrite Hlim; tauto).
    split; [|split; [|split; [|split]]].
    + rewrite (SetRange_too_long _ _ _ _ _ Hno). done.
    + rewrite (SetRange_too_long _ _ _ _ _ Hno). cbn. split; [done|tauto].
    + intros. by rewrite !(SetRange_too_long _ _ _ _ _ Hno).
    + rewrite (SetRange_too_long _ _ _ _ _ Hno). done.
    + intros allowBlank. cbv zeta. repeat split; reflexivity.
  - assert (Hin : formulasWithinLimit dd) by (by rewrite Hlim).
    split; [|split; [|split; [|split]]].
    + destruct (SetRange_within f1 f2 t o dd Hin) as [-> _].
      split; [done|tauto].
    + destruct (SetRange_within f1 f2 t o dd Hin) as [-> _]. done.
    + intros g1 g2 t' o'.
      destruct (SetRange_within f1 f2 t o dd Hin) as [-> _].
      by destruct (SetRange_within g1 g2 t' o' dd Hin) as [-> _].
    + intros _. by destruct (SetRange_within f1 f2 t o dd Hin) as (_ & ?).
    + intros allowBlank. cbv zeta. repeat split; reflexivity.
Qed.

(** C7: for every list of keys, [SetDropList] sets the first formula to
    the keys joined by commas between two double quotes, sets the type to
    list and returns no error, whatever the length of the formula, which
    is two more than that of the joined keys. The keys 1, 2, 3 give the
    formula 1,2,3 between quotes. *)
Theorem SetDropList_formula_and_type (keys : list string)
    (dd : DataValidation) :
  Formula1 (fst (SetDropList keys dd))
    = dquote +:+ String.concat "," keys +:+ dquote /\
  Type_ (fst (SetDropList keys dd)) = "list" /\
  snd (SetDropList keys dd) = None /\
  len (Formula1 (fst (SetDropList keys dd)))
    = len (String.concat "," keys) + 2 /\
  Formula1 (fst (SetDropList ["1"; "2"; "3"] dd))
    = dquote +:+ "1,2,3" +:+ dquote.
Proof.
  repeat split.
  - cbn. by rewrite Join_concat.
  - cbn. rewrite Join_concat, !len_append.
    change (len dquote) with 1. lia.
Qed.

(** C8: [SetSqref] sets the reference of the rule to the one given when
    the reference is empty, and otherwise appends one space and the
    reference given. On a fresh rule, A1:B2 and then C3:D4 give
    A1:B2 C3:D4. *)
Theorem SetSqref_sets_or_appends (sqref : string) (dd : DataValidation) :
  (Sqref dd = "" -> Sqref (SetSqref sqref dd) = sqref) /\
  (Sqref dd <> "" ->
   Sqref (SetSqref sqref dd) = Sqref dd +:+ " " +:+ sqref) /\
  (forall allowBlank,
     Sqref (SetSqref "C3:D4" (SetSqref "A1:B2" (NewDataValidation allowBlank)))
     = "A1:B2 C3:D4").
Proof.
  split; [|split].
  - intros H. cbn. by rewrite H.
  - intros H. cbn. destruct (String.eqb_spec (Sqref dd) ""); done.
  - reflexivity.
Qed.

(** C9: [SetError] switches the error alert on, stores the title and the
    message, and sets the style keyword: stop, warning and information for
    the three styles, and stop for every other value of the style. It has
    no error to return. *)
Theorem SetError_style_keyword (style : Z) (title msg : string)
    (dd : DataValidation) :
  ShowErrorMessage (SetError style title msg dd) = true /\
  ErrorTitle (SetError style title msg dd) = Some title /\
  Error (SetError style title msg dd) = Some msg /\
  (style = DataValidationErrorStyleStop ->
   ErrorStyle (SetError style title msg dd) = Some "stop") /\
  (style = DataValidationErrorStyleWarning ->
   ErrorStyle (SetError style title msg dd) = Some "warning") /\
  (style = DataValidationErrorStyleInformation ->
   ErrorStyle (SetError style title msg dd) = Some "information") /\
  (style <> DataValidationErrorStyleStop ->
   style <> DataValidationErrorStyleWarning ->
   style <> DataValidationErrorStyleInformation ->
   ErrorStyle (SetError style title msg dd) = Some "stop").
Proof.
  repeat split.
  - by intros ->.
  - by intros ->.
  - by intros ->.
  - intros H1 H2 H3. cbn.
    destruct (Z.eqb_spec style DataValidationErrorStyleStop); [done|].
    destruct (Z.eqb_spec style DataValidationErrorStyleWarning); [done|].
    by destruct (Z.eqb_spec style DataValidationErrorStyleInformation).
Qed.

(** C10: when [SetRange] returns an error, the rule is as it was before
    the call: formulas, type and operator, and every other field. *)
Theorem SetRange_error_leaves_rule (f1 f2 t o : Z) (dd : DataValidation) :
  snd (SetRange f1 f2 t o dd) <> None ->
  fst (SetRange f1 f2 t o dd) = dd.
Proof.
  intros H. unfold SetRange in *.
  by destruct (_ || _).
Qed.

Lemma SetRange_error_leaves_rule_witness :
  snd (SetRange 10 20 DataValidationTypeWhole DataValidationOperatorBetween
                longListRule) <> None /\
  fst (SetRange 10 20 DataValidationTypeWhole DataValidationOperatorBetween
                longListRule) = longListRule.
Proof.
  split.
  - vm_compute. discriminate.
  - apply SetRange_error_leaves_rule. vm_compute. discriminate.
Defined.

End ValidationTheory.

(** * Properties of chart option defaulting *)

Module ChartsTheory.
Import Charts.

(** ** The title loop *)

(** The two default values put into a font are not zero values. *)
Lemma default_colour_not_empty : String.eqb "595959" "" = false.
Proof. reflexivity. Qed.

Lemma default_size_not_zero : PrimFloat.eqb 14 0 = false.
Proof. reflexivity. Qed.

Lemma default_scale_not_zero : PrimFloat.eqb defaultPictureScale 0 = false.
Proof. reflexivity. Qed.

(** One turn of the loop leaves the run with a font. *)
Lemma parseTitleRun_font fs r fs1 r1 :
  parseTitleRun fs r = (fs1, r1) ->
  exists p, Font_ r1 = Some p /\ Text r1 = Text r /\
            (Font_ r = Some p \/ Font_ r = None /\ p = length fs).
Proof.
  unfold parseTitleRun. intros H.
  destruct (Font_ r) as [p|] eqn:Hf; inversion H; subst; cbn; eauto 6.
Qed.

(** The two writes through the font pointer [p], on the fonts [fs]. *)
Lemma font_writes_self (fs : list Font) (p : nat) :
  let fs1 :=
    match fs !! p with
    | Some f =>
        if String.eqb (Color f) "" then <[p := setColor "595959" f]> fs
        else fs
    | None => fs
    end in
  let fs2 :=
    match fs1 !! p with
    | Some f =>
        if PrimFloat.eqb (Size f) 0 then <[p := setSize 14 f]> fs1 else fs1
    | None => fs1
    end in
  (forall f, fs2 !! p = Some f -> fontAtRest f) /\
  (forall q, q <> p -> fs2 !! q = fs !! q) /\
  ((forall f, fs !! p = Some f -> fontAtRest f) -> fs2 = fs).
Proof.
  cbv zeta.
  destruct (fs !! p) as [f|] eqn:Hp.
  2:{ rewrite Hp. split; [intros f Hf; congruence|]. split; [done|done]. }
  assert (Hlt : (p < length fs)%nat) by (by eapply lookup_lt_Some).
  destruct (String.eqb (Color f) "") eqn:Hc.
  - rewrite list_lookup_insert_eq by done. cbn [setColor Size].
    destruct (PrimFloat.eqb (Size f) 0) eqn:Hs.
    + split; [|split].
      * intros g. rewrite list_lookup_insert_eq by (by rewrite length_insert).
        intros [= <-]. split; reflexivity.
      * intros q Hq. by rewrite !list_lookup_insert_ne.
      * intros Hrest. destruct (Hrest f eq_refl) as [Hc' _]. congruence.
    + split; [|split].
      * intros g. rewrite list_lookup_insert_eq by done.
        intros [= <-]. split; [reflexivity|done].
      * intros q Hq. by rewrite !list_lookup_insert_ne.
      * intros Hrest. destruct (Hrest f eq_refl) as [Hc' _]. congruence.
  - rewrite Hp.
    destruct (PrimFloat.eqb (Size f) 0) eqn:Hs.
    + split; [|split].
      * intros g. rewrite list_lookup_insert_eq by done.
        intros [= <-]. split; [done|reflexivity].
      * intros q Hq. by rewrite !list_lookup_insert_ne.
      * intros Hrest. destruct (Hrest f eq_refl) as [_ Hs']. congruence.
    + split; [|split].
      * intros g Hg. assert (g = f) by congruence. subst g. by split.
      * done.
      * done.
Qed.

Lemma parseTitleRun_self fs r fs1 r1 p :
  parseTitleRun fs r = (fs1, r1) -> Font_ r1 = Some p ->
  forall f, fs1 !! p = Some f -> fontAtRest f.
Proof.
  unfold parseTitleRun. intros H Hp.
  destruct (Font_ r) as [p'|] eqn:Hf.
  - inversion H; subst; clear H. cbn in Hp. injection Hp as <-.
    apply (font_writes_self fs p').
  - inversion H; subst; clear H. cbn in Hp. injection Hp as <-.
    apply (font_writes_self (fs ++ [zeroFont]) (length fs)).
Qed.

Lemma parseTitleRun_other fs r fs1 r1 p q :
  parseTitleRun fs r = (fs1, r1) -> Font_ r1 = Some p -> q <> p ->
  fs1 !! q = fs !! q.
Proof.
  unfold parseTitleRun. intros H Hp Hq.
  destruct (Font_ r) as [p'|] eqn:Hf.
  - inversion H; subst; clear H. cbn in Hp. injection Hp as <-.
    pose proof (font_writes_self fs p') as (_ & Ho & _).
    by apply Ho.
  - inversion H; subst; clear H. cbn in Hp. injection Hp as <-.
    pose proof (font_writes_self (fs ++ [zeroFont]) (length fs))
      as (_ & Ho & _).
    rewrite Ho by done.
    destruct (decide (q < length fs)%nat).
    + by rewrite lookup_app_l.
    + rewrite !lookup_ge_None_2; [done|lia|rewrite length_app; cbn; lia].
Qed.

Lemma parseTitleRun_at_rest fs r :
  runAtRest fs r -> parseTitleRun fs r = (fs, r).
Proof.
  intros (p & Hp & Hrest). unfold parseTitleRun. rewrite Hp.
  pose proof (font_writes_self fs p) as (_ & _ & Hid).
  cbv zeta in Hid. rewrite (Hid Hrest).
  destruct r as [ft tx]. cbn in *. by subst.
Qed.

(** A run at rest stays at rest through a turn of the loop on any run. *)
Lemma parseTitleRun_keeps fs r fs1 r1 r0 :
  parseTitleRun fs r = (fs1, r1) -> runAtRest fs r0 -> runAtRest fs1 r0.
Proof.
  intros H (q & Hq & Hrest).
  destruct (parseTitleRun_font _ _ _ _ H) as (p & Hp & _).
  exists q. split; [done|]. intros f Hf.
  destruct (decide (q = p)) as [->|Hne].
  - by eapply parseTitleRun_self.
  - apply Hrest. by rewrite <- (parseTitleRun_other _ _ _ _ _ _ H Hp Hne).
Qed.

Lemma parseTitleRun_rests fs r fs1 r1 :
  parseTitleRun fs r = (fs1, r1) -> runAtRest fs1 r1.
Proof.
  intros H. destruct (parseTitleRun_font _ _ _ _ H) as (p & Hp & _).
  exists p. split; [done|]. by eapply parseTitleRun_self.
Qed.

Lemma parseTitle_keeps runs : forall fs fs1 runs1 r0,
  parseTitle fs runs = (fs1, runs1) -> runAtRest fs r0 -> runAtRest fs1 r0.
Proof.
  induction runs as [|r rest IH]; intros fs fs1 runs1 r0 H H0; cbn in H.
  - by inversion H; subst.
  - destruct (parseTitleRun fs r) as [fsa ra] eqn:Ha.
    destruct (parseTitle fsa rest) as [fsb restb] eqn:Hb.
    inversion H; subst; clear H.
    eapply IH; [exact Hb|]. by eapply parseTitleRun_keeps.
Qed.

Lemma parseTitle_rests runs : forall fs fs1 runs1,
  parseTitle fs runs = (fs1, runs1) -> Forall (runAtRest fs1) runs1.
Proof.
  induction runs as [|r rest IH]; intros fs fs1 runs1 H; cbn in H.
  - inversion H; subst. constructor.
  - destruct (parseTitleRun fs r) as [fsa ra] eqn:Ha.
    destruct (parseTitle fsa rest) as [fsb restb] eqn:Hb.
    inversion H; subst; clear H. constructor.
    + eapply parseTitle_keeps; [exact Hb|]. by eapply parseTitleRun_rests.
    + by eapply IH.
Qed.

Lemma parseTitle_at_rest runs fs :
  Forall (runAtRest fs) runs -> parseTitle fs runs = (fs, runs).
Proof.
  induction 1 as [|r rest Hr _ IH]; [reflexivity|].
  cbn. by rewrite (parseTitleRun_at_rest _ _ Hr), IH.
Qed.


(** A font at rest is not written to. *)
Lemma parseTitleRun_keeps_font fs r fs1 r1 q f :
  parseTitleRun fs r = (fs1, r1) ->
  fs !! q = Some f -> fontAtRest f -> fs1 !! q = Some f.
Proof.
  intros H Hq Hf.
  destruct (parseTitleRun_font _ _ _ _ H) as (p & Hp & _ & Hcase).
  destruct (decide (q = p)) as [->|Hne].
  - destruct Hcase as [Hr|[_ ->]].
    + rewrite parseTitleRun_at_rest in H.
      * by inversion H; subst.
      * exists p. split; [done|]. intros g Hg. congruence.
    + apply lookup_lt_Some in Hq. lia.
  - by rewrite (parseTitleRun_other _ _ _ _ _ _ H Hp Hne).
Qed.

Lemma parseTitle_keeps_font runs : forall fs fs1 runs1 q f,
  parseTitle fs runs = (fs1, runs1) ->
  fs !! q = Some f -> fontAtRest f -> fs1 !! q = Some f.
Proof.
  induction runs as [|r rest IH]; intros fs fs1 runs1 q f H Hq Hf; cbn in H.
  - by inversion H; subst.
  - destruct (parseTitleRun fs r) as [fsa ra] eqn:Ha.
    destruct (parseTitle fsa rest) as [fsb restb] eqn:Hb.
    inversion H; subst; clear H.
    eapply IH; [exact Hb| |done]. by eapply parseTitleRun_keeps_font.
Qed.

(** Writing to the last cell of a list. *)
Lemma insert_last {A} (l : list A) (x y : A) :
  <[length l := y]> (l ++ [x]) = l ++ [y].
Proof. induction l as [|z l IH]; [done|]. cbn. f_equal. exact IH. Qed.

(** A run without font gets a new font with the default colour and size. *)
Lemma parseTitleRun_nil_font fs r :
  Font_ r = None ->
  parseTitleRun fs r =
  (fs ++ [ {| Color := "595959"; Size := 14 |} ],
   {| Font_ := Some (length fs); Text := Text r |}).
Proof.
  intros Hr. unfold parseTitleRun. rewrite Hr.
  rewrite (list_lookup_middle fs [] zeroFont (length fs) eq_refl).
  cbn [zeroFont Color String.eqb]. rewrite insert_last.
  rewrite (list_lookup_middle fs [] _ (length fs) eq_refl).
  cbn [setColor Size zeroFont].
  change (PrimFloat.eqb 0 0) with true. cbv iota.
  by rewrite insert_last.
Qed.

Lemma parseTitle_nil_font runs : forall fs fs1 runs1 i r,
  parseTitle fs runs = (fs1, runs1) ->
  runs !! i = Some r -> Font_ r = None ->
  exists p r1,
    runs1 !! i = Some r1 /\ Font_ r1 = Some p /\ Text r1 = Text r /\
    fs1 !! p = Some {| Color := "595959"; Size := 14 |}.
Proof.
  induction runs as [|r0 rest IH]; intros fs fs1 runs1 i r H Hi Hr; [done|].
  cbn in H.
  destruct (parseTitleRun fs r0) as [fsa ra] eqn:Ha.
  destruct (parseTitle fsa rest) as [fsb restb] eqn:Hb.
  inversion H; subst; clear H.
  destruct i as [|i]; cbn in Hi.
  - injection Hi as ->. rewrite parseTitleRun_nil_font in Ha by done.
    inversion Ha; subst; clear Ha.
    exists (length fs), {| Font_ := Some (length fs); Text := Text r |}.
    split; [done|]. split; [done|]. split; [done|].
    eapply parseTitle_keeps_font; [exact Hb| |by split].
    by apply list_lookup_middle.
  - exact (IH _ _ _ _ _ Hb Hi Hr).
Qed.

(** ** The body of [parseChartOptions] *)

(** Projections of a chart and field assignments, for [cbn]. *)
Ltac fields :=
  cbn [Width Height Dimension Format Legend Title VaryColors ShowBlanksAs
       Type_ Position ShowLegendKey OffsetX OffsetY ScaleX ScaleY PrintObject
       LockAspectRatio Locked setWidth setHeight setFormat setPrintObject
       setLocked setScaleX setScaleY setPosition setTitle setVaryColors
       setShowBlanksAs default fst snd].

(** Each statement, field by field. *)
Lemma defaultWidth_fields t w h f l ti v s :
  defaultWidth (mkChart t (mkChartDimension w h) f l ti v s)
  = mkChart t (mkChartDimension (if w =? 0 then 480 else w) h) f l ti v s.
Proof. unfold defaultWidth. fields. by destruct (w =? 0). Qed.

Lemma defaultHeight_fields t w h f l ti v s :
  defaultHeight (mkChart t (mkChartDimension w h) f l ti v s)
  = mkChart t (mkChartDimension w (if h =? 0 then 260 else h)) f l ti v s.
Proof. unfold defaultHeight. fields. by destruct (h =? 0). Qed.

Lemma defaultPrintObject_fields t d ox oy sx sy po la lk l ti v s :
  defaultPrintObject
    (mkChart t d (mkGraphicOptions ox oy sx sy po la lk) l ti v s)
  = mkChart t d (mkGraphicOptions ox oy sx sy (Some (default true po)) la lk)
            l ti v s.
Proof. unfold defaultPrintObject. fields. by destruct po. Qed.

Lemma defaultLocked_fields t d ox oy sx sy po la lk l ti v s :
  defaultLocked (mkChart t d (mkGraphicOptions ox oy sx sy po la lk) l ti v s)
  = mkChart t d (mkGraphicOptions ox oy sx sy po la (Some (default false lk)))
            l ti v s.
Proof. unfold defaultLocked. fields. by destruct lk. Qed.

Lemma defaultScaleX_fields t d ox oy sx sy po la lk l ti v s :
  defaultScaleX (mkChart t d (mkGraphicOptions ox oy sx sy po la lk) l ti v s)
  = mkChart t d
      (mkGraphicOptions ox oy (if PrimFloat.eqb sx 0 then 1%float else sx) sy
                        po la lk) l ti v s.
Proof. unfold defaultScaleX. fields. by destruct (PrimFloat.eqb sx 0). Qed.

Lemma defaultScaleY_fields t d ox oy sx sy po la lk l ti v s :
  defaultScaleY (mkChart t d (mkGraphicOptions ox oy sx sy po la lk) l ti v s)
  = mkChart t d
      (mkGraphicOptions ox oy sx (if PrimFloat.eqb sy 0 then 1%float else sy)
                        po la lk) l ti v s.
Proof. unfold defaultScaleY. fields. by destruct (PrimFloat.eqb sy 0). Qed.

Lemma defaultPosition_fields t d f pos k ti v s :
  defaultPosition (mkChart t d f (mkChartLegend pos k) ti v s)
  = mkChart t d f
      (mkChartLegend (if String.eqb pos "" then "bottom" else pos) k) ti v s.
Proof. unfold defaultPosition. fields. by destruct (String.eqb pos ""). Qed.

Lemma defaultVaryColors_fields t d f l ti v s :
  defaultVaryColors (mkChart t d f l ti v s)
  = mkChart t d f l ti (Some (default true v)) s.
Proof. unfold defaultVaryColors. fields. by destruct v. Qed.

Lemma defaultShowBlanksAs_fields t d f l ti v s :
  defaultShowBlanksAs (mkChart t d f l ti v s)
  = mkChart t d f l ti v (if String.eqb s "" then "gap" else s).
Proof. unfold defaultShowBlanksAs. fields. by destruct (String.eqb s ""). Qed.

(** What [parseChart] computes, field by field: a field at its zero value
    gets its default and any other field is kept. *)
Lemma parseChart_fields fs c :
  parseChart fs c =
  (fst (parseTitle fs (Title c)),
   {| Type_ := Type_ c;
      Dimension :=
        {| Width := if Width (Dimension c) =? 0 then 480
                    else Width (Dimension c);
           Height := if Height (Dimension c) =? 0 then 260
                     else Height (Dimension c) |};
      Format :=
        {| OffsetX := OffsetX (Format c);
           OffsetY := OffsetY (Format c);
           ScaleX := if PrimFloat.eqb (ScaleX (Format c)) 0 then 1%float
                     else ScaleX (Format c);
           ScaleY := if PrimFloat.eqb (ScaleY (Format c)) 0 then 1%float
                     else ScaleY (Format c);
           PrintObject := Some (default true (PrintObject (Format c)));
           LockAspectRatio := LockAspectRatio (Format c);
           Locked := Some (default false (Locked (Format c))) |};
      Legend :=
        {| Position := if String.eqb (Position (Legend c)) "" then "bottom"
                       else Position (Legend c);
           ShowLegendKey := ShowLegendKey (Legend c) |};
      Title := snd (parseTitle fs (Title c));
      VaryColors := Some (default true (VaryColors c));
      ShowBlanksAs := if String.eqb (ShowBlanksAs c) "" then "gap"
                      else ShowBlanksAs c |}).
Proof.
  destruct c as [t [w h] [ox oy sx sy po la lk] [pos slk] title vc sb].
  unfold parseChart. cbv zeta.
  rewrite defaultWidth_fields, defaultHeight_fields,
    defaultPrintObject_fields, defaultLocked_fields, defaultScaleX_fields,
    defaultScaleY_fields, defaultPosition_fields.
  fields. destruct (parseTitle fs title) as [fs1 title1].
  unfold setTitle. fields.
  by rewrite defaultVaryColors_fields, defaultShowBlanksAs_fields.
Qed.

Lemma parseChart_type fs c : Type_ (snd (parseChart fs c)) = Type_ c.
Proof. by rewrite parseChart_fields. Qed.

(** Defaulting a chart that has just been defaulted changes neither the
    chart nor the fonts. *)
Lemma parseChart_idempotent fs c fs1 c1 :
  parseChart fs c = (fs1, c1) -> parseChart fs1 c1 = (fs1, c1).
Proof.
  rewrite parseChart_fields. intros H.
  destruct (parseTitle fs (Title c)) as [fsa runs] eqn:Ht.
  cbn [fst snd] in H. inversion H; subst fs1 c1; clear H.
  rewrite parseChart_fields. fields.
  rewrite (parseTitle_at_rest runs fsa) by (by eapply parseTitle_rests).
  fields.
  assert (Hw : forall w d : Z, d <> 0 ->
            (if (if w =? 0 then d else w) =? 0 then d
             else if w =? 0 then d else w) = if w =? 0 then d else w).
  { intros w d Hd. destruct (Z.eqb_spec w 0) as [->|Hw].
    - by destruct (Z.eqb_spec d 0).
    - by destruct (Z.eqb_spec w 0). }
  assert (Hf : forall x : float,
            (if PrimFloat.eqb (if PrimFloat.eqb x 0 then 1%float else x) 0
             then 1%float
             else if PrimFloat.eqb x 0 then 1%float else x)
            = if PrimFloat.eqb x 0 then 1%float else x).
  { intros x. destruct (PrimFloat.eqb x 0) eqn:E; [reflexivity|by rewrite E]. }
  assert (Hs : forall s d : string, String.eqb d "" = false ->
            (if String.eqb (if String.eqb s "" then d else s) "" then d
             else if String.eqb s "" then d else s)
            = if String.eqb s "" then d else s).
  { intros s d Hd.
    destruct (String.eqb s "") eqn:E; [by rewrite Hd|by rewrite E]. }
  rewrite !Hw, !Hf, !Hs by done. reflexivity.
Qed.

(** ** [parseChartOptions] on the store *)

Lemma parseChartOptions_nil h :
  parseChartOptions None h = Some (h, (None, Some ErrParameterInvalid)).
Proof. reflexivity. Qed.

Lemma parseChartOptions_chart h a c :
  charts h !! a = Some c ->
  parseChartOptions (Some a) h =
  Some ({| fonts := fst (parseChart (fonts h) c);
           charts := <[a := snd (parseChart (fonts h) c)]> (charts h) |},
        (Some a, None)).
Proof.
  intros Hc. unfold parseChartOptions. rewrite Hc. cbn.
  by destruct (parseChart (fonts h) c).
Qed.

(** The types of the charts, by address; defaulting leaves them alone. *)
Lemma chartTypeAt_lookup h b :
  chartTypeAt h (Some b) = (Type_ <$> charts h) !! b.
Proof. unfold chartTypeAt. cbn. by rewrite list_lookup_fmap. Qed.

Lemma chartTypeAt_chart h b t :
  chartTypeAt h (Some b) = Some t <->
  exists c, charts h !! b = Some c /\ Type_ c = t.
Proof.
  unfold chartTypeAt. cbn. destruct (charts h !! b) as [c|]; cbn.
  - split; [intros [= <-]; eauto|]. by intros (c' & [= <-] & <-).
  - split; [done|]. by intros (c' & ? & _).
Qed.

Lemma parseChartOptions_types p h h1 r :
  parseChartOptions p h = Some (h1, r) ->
  forall q, chartTypeAt h1 q = chartTypeAt h q.
Proof.
  intros H [b|]; [|reflexivity]. rewrite !chartTypeAt_lookup.
  destruct p as [a|]; [|by inversion H].
  unfold parseChartOptions in H.
  destruct (charts h !! a) as [c|] eqn:Hc; [|done]. cbn in H.
  pose proof (parseChart_type (fonts h) c) as Ht.
  destruct (parseChart (fonts h) c) as [fs c1]. cbn in Ht.
  inversion H; subst; clear H. cbn [charts].
  rewrite list_fmap_insert, Ht.
  rewrite list_insert_id; [done|]. by rewrite list_lookup_fmap, Hc.
Qed.

Lemma supportedAt_types h h1 p :
  (forall q, chartTypeAt h1 q = chartTypeAt h q) ->
  supportedAt h p -> supportedAt h1 p.
Proof. intros Ht (t & H1 & H2). exists t. by rewrite Ht. Qed.

Lemma rejectedAt_types h h1 p e :
  (forall q, chartTypeAt h1 q = chartTypeAt h q) ->
  rejectedAt h p e -> rejectedAt h1 p e.
Proof.
  intros Ht [H|(t & H1 & H2 & H3)]; [by left|].
  right. exists t. by rewrite Ht.
Qed.


(** Defaulting a second time changes nothing. *)
Lemma parseChartOptions_again p h h1 r :
  parseChartOptions p h = Some (h1, r) ->
  parseChartOptions p h1 = Some (h1, r).
Proof.
  destruct p as [a|]; [|by intros [= <- <-]].
  intros H. unfold parseChartOptions in H.
  destruct (charts h !! a) as [c|] eqn:Hc; [|done]. cbn in H.
  destruct (parseChart (fonts h) c) as [fs c1] eqn:Hp.
  inversion H; subst; clear H.
  assert (Hlt : (a < length (charts h))%nat) by (by eapply lookup_lt_Some).
  rewrite (parseChartOptions_chart _ a c1)
    by (cbn; by rewrite list_lookup_insert_eq).
  cbn [fonts charts]. rewrite (parseChart_idempotent _ _ _ _ Hp). cbn.
  by rewrite list_insert_insert_eq.
Qed.

(** ** The supported-type table *)

Lemma chartValAxNumFmtFormatCode_keys (t : Z) :
  is_Some (chartValAxNumFmtFormatCode !! t) <-> 0 <= t <= 54.
Proof.
  rewrite <- not_eq_None_Some. unfold chartValAxNumFmtFormatCode.
  rewrite <- not_elem_of_list_to_map.
  match goal with |- ~ ~ (t ∈ ?l) <-> _ =>
    change l with (seqZ 0 55) end.
  rewrite elem_of_seqZ. split; [|lia].
  intros H. destruct (decide (0 <= t < 0 + 55)); [lia|]. by destruct H.
Qed.

Lemma supported_dec (t : Z) :
  {is_Some (chartValAxNumFmtFormatCode !! t)} +
  {chartValAxNumFmtFormatCode !! t = None}.
Proof. destruct (chartValAxNumFmtFormatCode !! t); [left; eauto|by right]. Qed.

(** A pointer of the store is accepted or rejected. *)
Lemma live_cases h p :
  live h p -> supportedAt h p \/ exists e, rejectedAt h p e.
Proof.
  intros [->|[t Ht]].
  - right. eexists. by left.
  - destruct (supported_dec t) as [Hs|Hn].
    + left. by exists t.
    + right. eexists. right. by exists t.
Qed.

Lemma supportedAt_not_rejected h p e :
  supportedAt h p -> rejectedAt h p e -> False.
Proof.
  intros (t & Ht & [x Hx]) [[-> _]|(t' & Ht' & Hn & _)]; [done|].
  congruence.
Qed.

(** A list of pointers of the store is accepted as a whole or has a first
    rejected pointer. *)
Lemma combo_cases h combo :
  Forall (live h) combo ->
  Forall (supportedAt h) combo \/
  exists pre p post e,
    combo = pre ++ p :: post /\ Forall (supportedAt h) pre /\
    rejectedAt h p e.
Proof.
  induction 1 as [|p rest Hp _ IH]; [by left|].
  destruct (live_cases h p Hp) as [Hs|[e He]].
  - destruct IH as [IH|(pre & q & post & e & -> & Hpre & Hq)].
    + left. by constructor.
    + right. exists (p :: pre), q, post, e. split; [done|].
      split; [by constructor|done].
  - right. by exists [], p, rest, e.
Qed.

(** ** [getChartOptions] *)

(** The table is looked up, never unfolded, in what follows. *)
#[local] Arguments chartValAxNumFmtFormatCode : simpl never.

(** Defaulting behind a pointer to a chart of type [t]. *)
Lemma parseChartOptions_typed h b t :
  chartTypeAt h (Some b) = Some t ->
  exists h1 c1,
    parseChartOptions (Some b) h = Some (h1, (Some b, None)) /\
    charts h1 !! b = Some c1 /\ Type_ c1 = t.
Proof.
  intros Ht. pose proof Ht as (c & Hc & _)%chartTypeAt_chart.
  pose proof (parseChartOptions_chart _ _ _ Hc) as Hp.
  rewrite <- (parseChartOptions_types _ _ _ _ Hp) in Ht.
  apply chartTypeAt_chart in Ht as (c1 & Hc1 & Ht1).
  by eexists _, c1.
Qed.

(** The loop over charts that are all accepted. *)
Lemma getComboCharts_supported combo : forall options acc h,
  Forall (supportedAt h) combo ->
  exists h1,
    parseAll combo h = Some h1 /\
    getComboCharts options combo acc h
    = Some (h1, (options, acc ++ combo, None)) /\
    (forall q, chartTypeAt h1 q = chartTypeAt h q).
Proof.
  induction combo as [|p rest IH]; intros options acc h Hall.
  - exists h. by rewrite app_nil_r.
  - apply Forall_cons in Hall as [(t & Ht & [x Hx]) Hrest].
    destruct p as [b|]; [|done].
    destruct (parseChartOptions_typed _ _ _ Ht) as (ha & c1 & Hp & Hc1 & <-).
    pose proof (parseChartOptions_types _ _ _ _ Hp) as Hty.
    destruct (IH options (acc ++ [Some b]) ha) as (h1 & Hall1 & Hloop & Hty1).
    { eapply Forall_impl; [exact Hrest|].
      intros q. by apply supportedAt_types. }
    exists h1. cbn [parseAll getComboCharts]. rewrite Hp. cbn.
    rewrite Hc1. cbn. rewrite Hx, Hloop, <- app_assoc.
    split; [done|]. split; [done|].
    intros q. by rewrite Hty1, Hty.
Qed.

(** The loop up to the first chart that is rejected. *)
Lemma getComboCharts_rejected pre : forall options acc h p post e,
  Forall (supportedAt h) pre -> rejectedAt h p e ->
  exists h1,
    parseAll (pre ++ [p]) h = Some h1 /\
    getComboCharts options (pre ++ p :: post) acc h
    = Some (h1, (options, acc ++ pre, Some e)).
Proof.
  induction pre as [|p0 pre IH]; intros options acc h p post e Hpre Hrej.
  - rewrite app_nil_r. cbn [app parseAll getComboCharts].
    destruct Hrej as [[-> ->]|(t & Ht & Hn & ->)]; [by exists h|].
    destruct p as [b|]; [|done].
    destruct (parseChartOptions_typed _ _ _ Ht) as (h1 & c1 & Hp & Hc1 & <-).
    exists h1. rewrite Hp. cbn. rewrite Hc1. cbn. by rewrite Hn.
  - apply Forall_cons in Hpre as [(t & Ht & [x Hx]) Hpre].
    destruct p0 as [b|]; [|done].
    destruct (parseChartOptions_typed _ _ _ Ht) as (ha & c1 & Hp & Hc1 & <-).
    pose proof (parseChartOptions_types _ _ _ _ Hp) as Hty.
    destruct (IH options (acc ++ [Some b]) ha p post e) as (h1 & Hall1 & Hloop).
    { eapply Forall_impl; [exact Hpre|].
      intros q. by apply supportedAt_types. }
    { by eapply rejectedAt_types. }
    exists h1. cbn [app parseAll getComboCharts]. rewrite Hp. cbn.
    rewrite Hc1. cbn. by rewrite Hx, Hloop, <- app_assoc.
Qed.

(** [getChartOptions] on a [nil] primary chart: nothing is touched. *)
Lemma getChartOptions_nil h combo :
  getChartOptions None combo h = Some (h, (None, [], Some ErrParameterInvalid)).
Proof. reflexivity. Qed.

(** A combo chart is rejected: its error is the result, whatever the type
    of the primary chart, and the charts up to it have been defaulted. *)
Lemma getChartOptions_combo_rejected h a pre p post e :
  is_Some (charts h !! a) ->
  Forall (supportedAt h) pre -> rejectedAt h p e ->
  exists h1,
    parseAll (Some a :: pre ++ [p]) h = Some h1 /\
    getChartOptions (Some a) (pre ++ p :: post) h
    = Some (h1, (Some a, pre, Some e)).
Proof.
  intros [c Hc] Hpre Hrej.
  assert (Ht : chartTypeAt h (Some a) = Some (Type_ c))
    by (apply chartTypeAt_chart; eauto).
  destruct (parseChartOptions_typed _ _ _ Ht) as (ha & ca & Hp & _ & _).
  pose proof (parseChartOptions_types _ _ _ _ Hp) as Hty.
  destruct (getComboCharts_rejected pre (Some a) [] ha p post e)
    as (h1 & Hall & Hloop).
  { eapply Forall_impl; [exact Hpre|].
    intros q. apply supportedAt_types, Hty. }
  { eapply rejectedAt_types; [apply Hty|exact Hrej]. }
  exists h1. cbn [parseAll]. unfold getChartOptions. rewrite Hp. cbn.
  by rewrite Hall, Hloop.
Qed.

(** Every combo chart is accepted: the type of the primary chart decides,
    after all the charts have been defaulted. *)
Lemma getChartOptions_combo_supported h a c combo :
  charts h !! a = Some c ->
  Forall (supportedAt h) combo ->
  exists h1,
    parseAll (Some a :: combo) h = Some h1 /\
    getChartOptions (Some a) combo h
    = Some (h1, (Some a, combo,
                 match chartValAxNumFmtFormatCode !! Type_ c with
                 | Some _ => None
                 | None => Some (ErrUnsupportedChartType (Type_ c))
                 end)).
Proof.
  intros Hc Hall.
  assert (Ht0 : chartTypeAt h (Some a) = Some (Type_ c))
    by (apply chartTypeAt_chart; eauto).
  destruct (parseChartOptions_typed _ _ _ Ht0) as (ha & ca & Hp & _ & _).
  pose proof (parseChartOptions_types _ _ _ _ Hp) as Hty.
  destruct (getComboCharts_supported combo (Some a) [] ha)
    as (h1 & Hall1 & Hloop & Hty1).
  { eapply Forall_impl; [exact Hall|].
    intros q. apply supportedAt_types, Hty. }
  assert (Ht : chartTypeAt h1 (Some a) = Some (Type_ c))
    by (by rewrite Hty1, Hty).
  apply chartTypeAt_chart in Ht as (c1 & Hc1 & Ht1).
  exists h1. cbn [parseAll]. unfold getChartOptions. rewrite Hp. cbn.
  rewrite Hall1, Hloop. cbn. rewrite Hc1. cbn. rewrite Ht1.
  split; [done|]. by destruct (chartValAxNumFmtFormatCode !! Type_ c).
Qed.

(** The column chart of the example store: the run without font gets a
    new font at address 1, and the font at address 0, which two runs
    share, is filled in once. *)
Example parseChartOptions_example :
  (h1 ← fst <$> parseChartOptions (Some 3%nat) exampleHeap;
   c1 ← charts h1 !! 3%nat;
   Some (fonts h1, Font_ <$> Title c1))
  = Some ([ {| Color := "595959"; Size := 14 |};
            {| Color := "595959"; Size := 14 |} ],
          [ Some 1%nat; Some 0%nat; Some 0%nat ]).
Proof. vm_compute. reflexivity. Qed.

(** ** The claims on option defaulting *)

(** C5: [parseChartOptions] on a chart of the store succeeds and returns
    the pointer it was given, and a second application changes neither the
    chart nor anything else in the store. The first application fills the
    fields that are at their zero value and keeps the others: width 480,
    height 260, print-object true, locked false, scales 1.0, legend
    position bottom, vary-colors true, blanks as gap; it leaves every run
    of the title with a font of non-empty colour and non-zero size, and a
    run that had no font with a font of colour 595959 and size 14. *)
Theorem parseChartOptions_idempotent (h : Heap) (a : nat) (c : Chart) :
  charts h !! a = Some c ->
  exists h1 c1,
    parseChartOptions (Some a) h = Some (h1, (Some a, None)) /\
    parseChartOptions (Some a) h1 = Some (h1, (Some a, None)) /\
    charts h1 !! a = Some c1 /\
    Type_ c1 = Type_ c /\
    Width (Dimension c1)
      = (if Width (Dimension c) =? 0 then 480 else Width (Dimension c)) /\
    Height (Dimension c1)
      = (if Height (Dimension c) =? 0 then 260 else Height (Dimension c)) /\
    PrintObject (Format c1) = Some (default true (PrintObject (Format c))) /\
    Locked (Format c1) = Some (default false (Locked (Format c))) /\
    ScaleX (Format c1)
      = (if PrimFloat.eqb (ScaleX (Format c)) 0 then 1%float
         else ScaleX (Format c)) /\
    ScaleY (Format c1)
      = (if PrimFloat.eqb (ScaleY (Format c)) 0 then 1%float
         else ScaleY (Format c)) /\
    Position (Legend c1)
      = (if String.eqb (Position (Legend c)) "" then "bottom"
         else Position (Legend c)) /\
    VaryColors c1 = Some (default true (VaryColors c)) /\
    ShowBlanksAs c1
      = (if String.eqb (ShowBlanksAs c) "" then "gap" else ShowBlanksAs c) /\
    Forall (runAtRest (fonts h1)) (Title c1) /\
    (forall i r, Title c !! i = Some r -> Font_ r = None ->
       exists p r1,
         Title c1 !! i = Some r1 /\ Font_ r1 = Some p /\
         Text r1 = Text r /\
         fonts h1 !! p = Some {| Color := "595959"; Size := 14 |}).
Proof.
  intros Hc.
  pose proof (parseChartOptions_chart _ _ _ Hc) as Hp.
  pose proof (parseChartOptions_again _ _ _ _ Hp) as Hp2.
  assert (Hlt : (a < length (charts h))%nat) by (by eapply lookup_lt_Some).
  eexists _, _. split; [exact Hp|]. split; [exact Hp2|].
  split; [cbn [charts]; by apply list_lookup_insert_eq|].
  rewrite parseChart_fields. fields. cbn [fonts].
  destruct (parseTitle (fonts h) (Title c)) as [fs1 runs1] eqn:Ht. fields.
  repeat (split; [reflexivity|]). split.
  - by eapply parseTitle_rests.
  - intros i r Hi Hr. by eapply parseTitle_nil_font.
Qed.

Lemma parseChartOptions_idempotent_witness :
  charts exampleHeap !! 3%nat
    = Some (setTitle [ {| Font_ := None; Text := "Fruit" |};
                       {| Font_ := Some 0%nat; Text := " by " |};
                       {| Font_ := Some 0%nat; Text := "size" |} ]
                     (zeroChart Col)) /\
  exists h1,
    parseChartOptions (Some 3%nat) exampleHeap
    = Some (h1, (Some 3%nat, None)) /\
    parseChartOptions (Some 3%nat) h1 = Some (h1, (Some 3%nat, None)).
Proof.
  split; [reflexivity|].
  destruct (parseChartOptions_idempotent exampleHeap 3 _ eq_refl)
    as (h1 & c1 & H1 & H2 & _).
  by exists h1.
Defined.

(** C1, as the code has it: the keys of the table are the 55 chart types 0
    to 54. With a primary chart of a supported type and no combo chart,
    [getChartOptions] returns without error. With a primary chart whose
    type is no key of the table it fails whatever the combo charts are; it
    fails with the unsupported-chart-type error of the type of the primary
    chart when every combo chart is a chart of a supported type, so also
    when there is no combo chart. *)
Theorem getChartOptions_supported_types (h : Heap) (a : nat) (c : Chart) :
  charts h !! a = Some c ->
  (is_Some (chartValAxNumFmtFormatCode !! Type_ c) <-> 0 <= Type_ c <= 54) /\
  (is_Some (chartValAxNumFmtFormatCode !! Type_ c) ->
   exists h1,
     getChartOptions (Some a) [] h = Some (h1, (Some a, [], None))) /\
  (chartValAxNumFmtFormatCode !! Type_ c = None ->
   forall combo, Forall (live h) combo ->
   exists h1 comboCharts e,
     getChartOptions (Some a) combo h
     = Some (h1, (Some a, comboCharts, Some e))) /\
  (chartValAxNumFmtFormatCode !! Type_ c = None ->
   forall combo, Forall (supportedAt h) combo ->
   exists h1,
     getChartOptions (Some a) combo h
     = Some (h1, (Some a, combo,
                  Some (ErrUnsupportedChartType (Type_ c))))).
Proof.
  intros Hc. split; [apply chartValAxNumFmtFormatCode_keys|].
  split; [|split].
  - intros [x Hx].
    destruct (getChartOptions_combo_supported h a c [] Hc) as (h1 & _ & Hg);
      [constructor|].
    rewrite Hx in Hg. by exists h1.
  - intros Hn combo Hlive.
    destruct (combo_cases h combo Hlive)
      as [Hall|(pre & p & post & e & -> & Hpre & Hrej)].
    + destruct (getChartOptions_combo_supported h a c combo Hc Hall)
        as (h1 & _ & Hg).
      rewrite Hn in Hg. by eexists _, _, _.
    + destruct (getChartOptions_combo_rejected h a pre p post e)
        as (h1 & _ & Hg); [by eexists|done|done|].
      by eexists _, _, _.
  - intros Hn combo Hall.
    destruct (getChartOptions_combo_supported h a c combo Hc Hall)
      as (h1 & _ & Hg).
    rewrite Hn in Hg. by exists h1.
Qed.

Lemma getChartOptions_supported_types_witness :
  charts exampleHeap !! 2%nat = Some (zeroChart Line) /\
  exists h1,
    getChartOptions (Some 2%nat) [] exampleHeap
    = Some (h1, (Some 2%nat, [], None)).
Proof.
  split; [reflexivity|].
  destruct (getChartOptions_supported_types exampleHeap 2 _ eq_refl)
    as (_ & Hok & _).
  apply Hok. vm_compute. eauto.
Defined.

(** C1 as stated fails: the primary chart has type 55, which is no key of
    the table, and the error of [getChartOptions] does not identify 55:
    with a combo chart of type 56 it identifies 56, and with a [nil] combo
    chart it is the invalid-parameter error. *)
Lemma getChartOptions_error_not_of_primary :
  Type_ <$> charts exampleHeap !! 0%nat = Some 55 /\
  chartValAxNumFmtFormatCode !! 55 = None /\
  snd <$> getChartOptions (Some 0%nat) [Some 1%nat] exampleHeap
    = Some (Some 0%nat, [], Some (ErrUnsupportedChartType 56)) /\
  snd <$> getChartOptions (Some 0%nat) [None] exampleHeap
    = Some (Some 0%nat, [], Some ErrParameterInvalid) /\
  ErrUnsupportedChartType 56 <> ErrUnsupportedChartType 55 /\
  ErrParameterInvalid <> ErrUnsupportedChartType 55.
Proof. repeat split; (vm_compute; reflexivity) || discriminate. Qed.

(** C2, as the code has it. A [nil] primary chart fails with the
    invalid-parameter error and nothing is touched. Otherwise the primary
    chart is defaulted first; then the combo charts, in their order, are
    defaulted and validated one after the other, and the first that is
    [nil] or of an unsupported type ends the call with its error, the
    charts before it having been defaulted, whatever the type of the
    primary chart; the type of the primary chart is validated last, when
    every combo chart has been accepted. The store at the end is the one
    left by defaulting, one after the other, the primary chart and the
    combo charts reached. *)
Theorem getChartOptions_order (h : Heap) (opts : option nat)
    (combo : list (option nat)) :
  live h opts ->
  (opts = None ->
   getChartOptions opts combo h
   = Some (h, (None, [], Some ErrParameterInvalid))) /\
  (forall pre p post e,
     opts <> None -> combo = pre ++ p :: post ->
     Forall (supportedAt h) pre -> rejectedAt h p e ->
     exists h1,
       parseAll (opts :: pre ++ [p]) h = Some h1 /\
       getChartOptions opts combo h = Some (h1, (opts, pre, Some e))) /\
  (forall e,
     opts <> None -> Forall (supportedAt h) combo -> rejectedAt h opts e ->
     exists h1,
       parseAll (opts :: combo) h = Some h1 /\
       getChartOptions opts combo h = Some (h1, (opts, combo, Some e))) /\
  (Forall (supportedAt h) (opts :: combo) ->
   exists h1,
     parseAll (opts :: combo) h = Some h1 /\
     getChartOptions opts combo h = Some (h1, (opts, combo, None))).
Proof.
  intros Hlive. split; [by intros ->|]. split; [|split].
  - intros pre p post e Hopts -> Hpre Hrej.
    destruct Hlive as [->|[t Ht]]; [done|].
    destruct opts as [a|]; [|done].
    apply chartTypeAt_chart in Ht as (c & Hc & _).
    apply getChartOptions_combo_rejected; eauto.
  - intros e Hopts Hall [[-> _]|(t & Ht & Hn & ->)]; [done|].
    destruct opts as [a|]; [|done].
    apply chartTypeAt_chart in Ht as (c & Hc & <-).
    destruct (getChartOptions_combo_supported h a c combo Hc Hall)
      as (h1 & Hp & Hg).
    rewrite Hn in Hg. by exists h1.
  - intros [(t & Ht & [x Hx]) Hall]%Forall_cons.
    destruct opts as [a|]; [|done].
    apply chartTypeAt_chart in Ht as (c & Hc & <-).
    destruct (getChartOptions_combo_supported h a c combo Hc Hall)
      as (h1 & Hp & Hg).
    rewrite Hx in Hg. by exists h1.
Qed.

Lemma getChartOptions_order_witness :
  live exampleHeap (Some 3%nat) /\
  exists h1,
    parseAll [Some 3%nat; Some 2%nat] exampleHeap = Some h1 /\
    getChartOptions (Some 3%nat) [Some 2%nat] exampleHeap
    = Some (h1, (Some 3%nat, [Some 2%nat], None)).
Proof.
  assert (Hlive : live exampleHeap (Some 3%nat)).
  { right. exists Col. reflexivity. }
  split; [exact Hlive|].
  destruct (getChartOptions_order exampleHeap (Some 3%nat) [Some 2%nat] Hlive)
    as (_ & _ & _ & Hok).
  apply Hok. repeat constructor.
  - exists Col. split; [reflexivity|]. vm_compute. eauto.
  - exists Line. split; [reflexivity|]. vm_compute. eauto.
Defined.

(** C2 as stated fails: the primary chart is not validated before the
    combo charts are processed. With a primary chart of the unsupported
    type 55 and a line chart as combo chart, the call fails for type 55
    and yet the combo chart has been defaulted (its width, 0 before, is
    480); with a combo chart of the unsupported type 56 the error is the
    one of the combo chart, 56, not the one of the primary chart. *)
Lemma getChartOptions_primary_validated_last :
  Type_ <$> charts exampleHeap !! 0%nat = Some 55 /\
  chartValAxNumFmtFormatCode !! 55 = None /\
  (Width ∘ Dimension) <$> charts exampleHeap !! 2%nat = Some 0 /\
  snd <$> getChartOptions (Some 0%nat) [Some 2%nat] exampleHeap
    = Some (Some 0%nat, [Some 2%nat], Some (ErrUnsupportedChartType 55)) /\
  (h1 ← fst <$> getChartOptions (Some 0%nat) [Some 2%nat] exampleHeap;
   (Width ∘ Dimension) <$> charts h1 !! 2%nat) = Some 480 /\
  snd <$> getChartOptions (Some 0%nat) [Some 1%nat] exampleHeap
    = Some (Some 0%nat, [], Some (ErrUnsupportedChartType 56)).
Proof. repeat split; vm_compute; reflexivity. Qed.

End ChartsTheory.

(** * Properties of chart assembly *)

Module AssemblyTheory.
Import Charts Assembly.

Example Contains_examples :
  Contains "xl/charts/chart1.xml" "xl/charts/chart" = true /\
  Contains "xl/drawings/drawing1.xml" "xl/charts/chart" = false /\
  Contains "" "" = true.
Proof. repeat split. Qed.

Example countCharts_example :
  countCharts
    (mkFile (list_to_map [ ("xl/charts/chart1.xml", "");
                           ("xl/charts/chart2.xml", "");
                           ("xl/drawings/drawing1.xml", "") ]) tt) = 2.
Proof. vm_compute. reflexivity. Qed.

Section AddChartFacts.

Context {R Worksheet NameSpace : Type}.
Variable workSheetReader :
  string -> File R -> File R * (option Worksheet * option error).
Variable countDrawings : File R -> File R * Z.
Variable prepareDrawing :
  option Worksheet -> Z -> string -> string -> File R ->
  File R * (Z * string).
Variable addRels :
  string -> string -> string -> string -> File R -> File R * Z.
Variable addDrawingChart :
  string -> string -> string -> Z -> Z -> Z -> nat ->
  File R * Heap -> File R * Heap * option error.
Variable addChart :
  option nat -> list (option nat) -> File R * Heap -> File R * Heap.
Variable addContentTypePart :
  Z -> string -> File R -> File R * option error.
Variable addSheetNameSpace : string -> NameSpace -> File R -> File R.
Variable SourceRelationshipChart : string.
Variable SourceRelationship : NameSpace.

(** C6: when the worksheet reader fails for the sheet name, [AddChart]
    returns the error of the reader; the document is the one the reader
    left and the store of charts is untouched, whatever the other
    collaborators are: none of them has been called, so no drawing part,
    chart part, relationship or content-type entry has been made. When
    the reader leaves the parts of the package as they are, the parts
    after the call, and with them the count of chart parts, are those
    before the call. *)
Theorem AddChart_unknown_sheet (sheet cell : string) (chart : option nat)
    (combo : list (option nat)) (f f1 : File R) (h : Heap)
    (ws : option Worksheet) (e : error) :
  workSheetReader sheet f = (f1, (ws, Some e)) ->
  AddChart workSheetReader countDrawings prepareDrawing addRels
           addDrawingChart addChart addContentTypePart addSheetNameSpace
           SourceRelationshipChart SourceRelationship
           sheet cell chart combo (f, h)
  = Some (f1, h, Some e) /\
  (Pkg f1 = Pkg f ->
   forall f2 h2 err,
     AddChart workSheetReader countDrawings prepareDrawing addRels
              addDrawingChart addChart addContentTypePart addSheetNameSpace
              SourceRelationshipChart SourceRelationship
              sheet cell chart combo (f, h)
     = Some (f2, h2, err) ->
     Pkg f2 = Pkg f /\ countCharts f2 = countCharts f /\ h2 = h).
Proof.
  intros Hws.
  assert (Hrun :
    AddChart workSheetReader countDrawings prepareDrawing addRels
             addDrawingChart addChart addContentTypePart addSheetNameSpace
             SourceRelationshipChart SourceRelationship
             sheet cell chart combo (f, h)
    = Some (f1, h, Some e)).
  { unfold AddChart. by rewrite Hws. }
  split; [exact Hrun|].
  intros Hpkg f2 h2 err Hrun2. rewrite Hrun in Hrun2.
  injection Hrun2 as <- <- <-. unfold countCharts. by rewrite Hpkg.
Qed.

End AddChartFacts.

Lemma AddChart_unknown_sheet_witness :
  demoWorkSheetReader "Sheet2" demoFile
    = (demoFile,
       (None, Some (ErrCollaborator "sheet Sheet2 does not exist"))) /\
  demoAddChart "Sheet2" "E1" (Some 2%nat) [] (demoFile, exampleHeap)
    = Some (demoFile, exampleHeap,
            Some (ErrCollaborator "sheet Sheet2 does not exist")).
Proof.
  split; [reflexivity|].
  unfold demoAddChart.
  refine (proj1 (AddChart_unknown_sheet
                   _ _ _ _ _ _ _ _ _ _ _ _ _ _ _ _ _ _ _ _)).
  reflexivity.
Defined.

(** On the worksheet of the example document the same call goes through
    and the line chart is defaulted. *)
Example demoAddChart_Sheet1 :
  snd <$> demoAddChart "Sheet1" "E1" (Some 2%nat) [] (demoFile, exampleHeap)
    = Some None /\
  (st ← fst <$> demoAddChart "Sheet1" "E1" (Some 2%nat) []
                  (demoFile, exampleHeap);
   (Width ∘ Dimension) <$> charts (snd st) !! 2%nat) = Some 480.
Proof. split; vm_compute; reflexivity. Qed.

End AssemblyTheory.

(** * Further properties of the data-validation builder *)

Module ValidationExtra.
Import Validation Worksheet.

(** ** Strings *)

Lemma append_cons (c : ascii) (s t : string) :
  String c s +:+ t = String c (s +:+ t).
Proof. reflexivity. Qed.

Lemma append_empty_l (s : string) : "" +:+ s = s.
Proof. reflexivity. Qed.

Lemma append_assoc (s t u : string) : (s +:+ t) +:+ u = s +:+ (t +:+ u).
Proof.
  induction s as [|c s IH]; [by rewrite !append_empty_l|].
  by rewrite !append_cons, IH.
Qed.

Lemma length_append (s t : string) :
  String.length (s +:+ t) = (String.length s + String.length t)%nat.
Proof.
  induction s as [|c s IH]; [by rewrite append_empty_l|].
  rewrite append_cons. cbn [String.length]. by rewrite IH.
Qed.

Lemma append_not_empty_l (s t : string) : s <> "" -> s +:+ t <> "".
Proof. destruct s; [done|]. by rewrite append_cons. Qed.

Lemma append_not_empty_r (s t : string) : t <> "" -> s +:+ t <> "".
Proof.
  intros Ht. destruct s; [by rewrite append_empty_l|]. by rewrite append_cons.
Qed.

(** The length of [strings.Join]: the lengths of the elements and one
    separator between two neighbours. *)
Lemma length_Join (elems : list string) (sep : string) :
  String.length (Join elems sep)
  = (sum_list (String.length <$> elems)
     + String.length sep * (length elems - 1))%nat.
Proof.
  induction elems as [|s rest IH]; [cbn; lia|].
  destruct rest as [|s' rest'].
  - cbn. unfold id. lia.
  - change (Join (s :: s' :: rest') sep)
      with (s +:+ sep +:+ Join (s' :: rest') sep).
    rewrite !length_append, IH. cbn [fmap list_fmap sum_list sum_list_with
      length Nat.sub]. rewrite Nat.sub_0_r, Nat.mul_succ_r.
    unfold id. lia.
Qed.

(** ** Decimal numerals *)

Lemma length_string_of_uint (d : Decimal.uint) :
  String.length (NilEmpty.string_of_uint d) = Decimal.nb_digits d.
Proof. induction d; cbn; congruence. Qed.

Lemma nb_digits_double (d : Decimal.uint) :
  (Decimal.nb_digits (Decimal.Little.double d) <= S (Decimal.nb_digits d))%nat
  /\ (Decimal.nb_digits (Decimal.Little.succ_double d)
      <= S (Decimal.nb_digits d))%nat.
Proof. induction d as [|d [IH1 IH2]|d [IH1 IH2]|d [IH1 IH2]|d [IH1 IH2]
    |d [IH1 IH2]|d [IH1 IH2]|d [IH1 IH2]|d [IH1 IH2]|d [IH1 IH2]
    |d [IH1 IH2]]; cbn; lia.
Qed.

Lemma nb_digits_to_little_uint (p : positive) :
  (Decimal.nb_digits (Pos.to_little_uint p) <= Pos.size_nat p)%nat.
Proof.
  induction p as [p IH|p IH|]; cbn [Pos.to_little_uint Pos.size_nat].
  - pose proof (nb_digits_double (Pos.to_little_uint p)). lia.
  - pose proof (nb_digits_double (Pos.to_little_uint p)). lia.
  - cbn. lia.
Qed.

Lemma size_nat_64 (p : positive) :
  (p <= 2 ^ 63)%positive -> (Pos.size_nat p <= 64)%nat.
Proof.
  intros Hp. apply Pos.le_lteq in Hp as [Hlt| ->].
  - apply Pos.size_nat_monotone in Hlt.
    change (Pos.size_nat (2 ^ 63)) with 64%nat in Hlt. done.
  - vm_compute. done.
Qed.

(** The numeral of a 64-bit integer has at most 65 bytes. *)
Lemma len_Itoa (n : Z) : - 2 ^ 63 <= n < 2 ^ 63 -> len (Itoa n) <= 65.
Proof.
  intros Hn. unfold len, Itoa.
  assert (Hpos : forall p, (p <= 2 ^ 63)%positive ->
    (String.length (NilZero.string_of_uint (Pos.to_uint p)) <= 64)%nat).
  { intros p Hp. unfold NilZero.string_of_uint.
    pose proof (DecimalPos.Unsigned.to_uint_nonnil p) as Hnn.
    assert (Hl : (String.length (NilEmpty.string_of_uint (Pos.to_uint p))
                  <= 64)%nat).
    { rewrite length_string_of_uint. unfold Pos.to_uint.
      rewrite DecimalFacts.nb_digits_rev.
      pose proof (nb_digits_to_little_uint p).
      pose proof (size_nat_64 p Hp). lia. }
    by destruct (Pos.to_uint p). }
  destruct n as [|p|p]; cbn [Z.to_int NilZero.string_of_int].
  - cbn. lia.
  - specialize (Hpos p ltac:(lia)). lia.
  - specialize (Hpos p ltac:(lia)). cbn [String.length]. lia.
Qed.

(** Joining after gluing the first two elements with the separator. *)
Lemma Join_glue (a b sep : string) (rest : list string) :
  Join ((a +:+ sep +:+ b) :: rest) sep = Join (a :: b :: rest) sep.
Proof.
  destruct rest as [|r rest]; [reflexivity|].
  change (Join ((a +:+ sep +:+ b) :: r :: rest) sep)
    with ((a +:+ sep +:+ b) +:+ sep +:+ Join (r :: rest) sep).
  change (Join (a :: b :: r :: rest) sep)
    with (a +:+ sep +:+ b +:+ sep +:+ Join (r :: rest) sep).
  by rewrite !append_assoc.
Qed.

(** ** Drop lists *)

(** X1: the first formula that [SetDropList] writes has the bytes of the
    keys, one comma between two neighbours and the two quotes; so the rule
    is within the limit of 257 bytes after the call exactly when the keys
    and commas together have at most 255 bytes (and the second formula,
    which the call leaves alone, is within the limit). *)
Theorem SetDropList_formula_length (keys : list string)
    (dd : DataValidation) :
  len (Formula1 (fst (SetDropList keys dd)))
  = Z.of_nat (sum_list (String.length <$> keys) + (length keys - 1) + 2) /\
  (formulasWithinLimit (fst (SetDropList keys dd)) <->
   (sum_list (String.length <$> keys) + (length keys - 1) <= 255)%nat /\
   len (Formula2 dd) <= 257).
Proof.
  assert (Hlen : len (Formula1 (fst (SetDropList keys dd)))
    = Z.of_nat (sum_list (String.length <$> keys) + (length keys - 1) + 2)).
  { cbn [SetDropList fst Formula1]. unfold len.
    rewrite !length_append, length_Join.
    change (String.length dquote) with 1%nat.
    change (String.length ",") with 1%nat. f_equal. lia. }
  split; [exact Hlen|].
  unfold formulasWithinLimit. rewrite Hlen.
  cbn [SetDropList fst Formula2]. unfold dataValidationFormulaStrLen. lia.
Qed.

(** X2: [SetDropList] does not escape commas: a key with a comma in it
    gives the rule that the two keys on either side of the comma give. *)
Theorem SetDropList_comma_in_key (a b : string) (rest : list string)
    (dd : DataValidation) :
  SetDropList ((a +:+ "," +:+ b) :: rest) dd = SetDropList (a :: b :: rest) dd.
Proof. unfold SetDropList. by rewrite Join_glue. Qed.

(** ** Ranges *)

(** X3: a successful [SetRange] with bounds of a 64-bit [int] leaves both
    formulas within the limit, so that any further [SetRange] succeeds as
    well and writes its own bounds. *)
Theorem SetRange_keeps_limit (f1 f2 t o : Z) (dd : DataValidation) :
  - 2 ^ 63 <= f1 < 2 ^ 63 -> - 2 ^ 63 <= f2 < 2 ^ 63 ->
  snd (SetRange f1 f2 t o dd) = None ->
  formulasWithinLimit (fst (SetRange f1 f2 t o dd)) /\
  forall g1 g2 t' o',
    snd (SetRange g1 g2 t' o' (fst (SetRange f1 f2 t o dd))) = None /\
    Formula1 (fst (SetRange g1 g2 t' o' (fst (SetRange f1 f2 t o dd))))
      = Itoa g1 /\
    Formula2 (fst (SetRange g1 g2 t' o' (fst (SetRange f1 f2 t o dd))))
      = Itoa g2.
Proof.
  intros H1 H2 Hok.
  assert (Hin : formulasWithinLimit (fst (SetRange f1 f2 t o dd))).
  { unfold SetRange in *. destruct (_ || _); [done|].
    cbn [fst Formula1 Formula2]. unfold formulasWithinLimit.
    cbn [Formula1 Formula2]. unfold dataValidationFormulaStrLen.
    pose proof (len_Itoa f1 H1). pose proof (len_Itoa f2 H2). lia. }
  split; [exact Hin|]. intros g1 g2 t' o'.
  destruct (ValidationTheory.SetRange_within g1 g2 t' o' _ Hin)
    as (? & ? & ? & _).
  done.
Qed.

Lemma SetRange_keeps_limit_witness :
  snd (SetRange 10 20 DataValidationTypeWhole DataValidationOperatorBetween
                (NewDataValidation true)) = None /\
  formulasWithinLimit
    (fst (SetRange 10 20 DataValidationTypeWhole
                   DataValidationOperatorBetween (NewDataValidation true))).
Proof.
  split; [reflexivity|].
  refine (proj1 (SetRange_keeps_limit 10 20 _ _ _ _ _ _)).
  - split; [discriminate|reflexivity].
  - split; [discriminate|reflexivity].
  - reflexivity.
Defined.

(** X4: a rule with a formula over the limit is stuck for [SetRange]:
    every call of a chain of [SetRange] calls returns the length error
    and the rule stays as it is. *)
Theorem SetRange_chain_stuck (ops : list FormulaOp) (dd : DataValidation) :
  ~ formulasWithinLimit dd ->
  Forall (fun op => exists f1 f2 t o, op = OpSetRange f1 f2 t o) ops ->
  applyOps ops dd
  = (dd, replicate (length ops) (Some dataValidationFormulaStrLenErr)).
Proof.
  intros Hlong. induction 1 as [|op ops (f1 & f2 & t & o & ->) _ IH].
  - reflexivity.
  - cbn [applyOps applyOp length replicate].
    rewrite (ValidationTheory.SetRange_too_long _ _ _ _ _ Hlong).
    by rewrite IH.
Qed.

Lemma SetRange_chain_stuck_witness :
  ~ formulasWithinLimit longListRule /\
  applyOps [ OpSetRange 1 2 DataValidationTypeWhole
                        DataValidationOperatorBetween;
             OpSetRange 3 4 DataValidationTypeDecimal
                        DataValidationOperatorEqual ] longListRule
  = (longListRule,
     [ Some dataValidationFormulaStrLenErr;
       Some dataValidationFormulaStrLenErr ]).
Proof.
  assert (Hlong : ~ formulasWithinLimit longListRule).
  { intros [H _]. vm_compute in H. by apply H. }
  split; [exact Hlong|].
  refine (SetRange_chain_stuck
            [ OpSetRange 1 2 DataValidationTypeWhole
                         DataValidationOperatorBetween;
              OpSetRange 3 4 DataValidationTypeDecimal
                         DataValidationOperatorEqual ]
            longListRule Hlong _).
  repeat constructor; eexists _, _, _, _; reflexivity.
Defined.

(** ** Keywords *)

Lemma dataValidationTypeMap_keys (t : Z) :
  is_Some (dataValidationTypeMap !! t) <-> 1 <= t <= 8.
Proof.
  rewrite <- not_eq_None_Some. unfold dataValidationTypeMap.
  rewrite <- not_elem_of_list_to_map.
  match goal with |- ~ ~ (t ∈ ?l) <-> _ => change l with (seqZ 1 8) end.
  rewrite elem_of_seqZ. split; [|lia].
  intros H. destruct (decide (1 <= t < 1 + 8)); [lia|]. by destruct H.
Qed.

Lemma dataValidationOperatorMap_keys (o : Z) :
  is_Some (dataValidationOperatorMap !! o) <-> 1 <= o <= 8.
Proof.
  rewrite <- not_eq_None_Some. unfold dataValidationOperatorMap.
  rewrite <- not_elem_of_list_to_map.
  match goal with |- ~ ~ (o ∈ ?l) <-> _ => change l with (seqZ 1 8) end.
  rewrite elem_of_seqZ. split; [|lia].
  intros H. destruct (decide (1 <= o < 1 + 8)); [lia|]. by destruct H.
Qed.

(** X5: the keyword of a type and the keyword of an operator are not
    empty exactly for the eight declared values 1 to 8, on which the
    keywords are pairwise different; for any other value the keyword is
    empty, and [SetRange] on a rule within the limit then succeeds and
    stores the empty keyword. *)
Theorem conv_keywords (t o : Z) :
  (convDataValidationType t <> "" <-> 1 <= t <= 8) /\
  (convDataValidationOperatior o <> "" <-> 1 <= o <= 8) /\
  (forall t', 1 <= t <= 8 -> 1 <= t' <= 8 ->
     convDataValidationType t = convDataValidationType t' -> t = t') /\
  (forall o', 1 <= o <= 8 -> 1 <= o' <= 8 ->
     convDataValidationOperatior o = convDataValidationOperatior o' ->
     o = o') /\
  (forall f1 f2 dd, formulasWithinLimit dd ->
     ~ 1 <= t <= 8 -> ~ 1 <= o <= 8 ->
     snd (SetRange f1 f2 t o dd) = None /\
     Type_ (fst (SetRange f1 f2 t o dd)) = "" /\
     Operator (fst (SetRange f1 f2 t o dd)) = "").
Proof.
  assert (Hcases : forall x : Z, 1 <= x <= 8 ->
    x = 1 \/ x = 2 \/ x = 3 \/ x = 4 \/ x = 5 \/ x = 6 \/ x = 7 \/ x = 8)
    by (intros; lia).
  assert (Ht : forall x, ~ 1 <= x <= 8 -> convDataValidationType x = "").
  { intros x Hx. unfold convDataValidationType.
    destruct (dataValidationTypeMap !! x) eqn:E; [|done].
    destruct Hx. apply dataValidationTypeMap_keys. eauto. }
  assert (Ho : forall x, ~ 1 <= x <= 8 -> convDataValidationOperatior x = "").
  { intros x Hx. unfold convDataValidationOperatior.
    destruct (dataValidationOperatorMap !! x) eqn:E; [|done].
    destruct Hx. apply dataValidationOperatorMap_keys. eauto. }
  split; [|split; [|split; [|split]]].
  - split.
    + intros H. destruct (decide (1 <= t <= 8)); [done|]. destruct H. by apply Ht.
    + intros H%Hcases.
      repeat destruct H as [->|H]; try subst t; by vm_compute.
  - split.
    + intros H. destruct (decide (1 <= o <= 8)); [done|]. destruct H. by apply Ho.
    + intros H%Hcases.
      repeat destruct H as [->|H]; try subst o; by vm_compute.
  - intros t' H H'. apply Hcases in H, H'.
    repeat destruct H as [->|H]; try subst t;
      repeat destruct H' as [->|H']; try subst t';
      (reflexivity || (vm_compute; discriminate)).
  - intros o' H H'. apply Hcases in H, H'.
    repeat destruct H as [->|H]; try subst o;
      repeat destruct H' as [->|H']; try subst o';
      (reflexivity || (vm_compute; discriminate)).
  - intros f1 f2 dd Hin Hnt Hno.
    destruct (ValidationTheory.SetRange_within f1 f2 t o dd Hin)
      as (-> & _ & _ & -> & ->).
    by rewrite (Ht _ Hnt), (Ho _ Hno).
Qed.

(** ** References *)

Lemma SetSqref_not_empty (sqref : string) (dd : DataValidation) :
  Sqref dd <> "" ->
  Sqref (SetSqref sqref dd) = Sqref dd +:+ " " +:+ sqref /\
  Sqref (SetSqref sqref dd) <> "".
Proof.
  intros H. cbn [SetSqref Sqref].
  destruct (String.eqb_spec (Sqref dd) ""); [done|].
  split; [done|]. by apply append_not_empty_l.
Qed.

Lemma SetSqref_chain_not_empty (refs : list string) : forall dd,
  Sqref dd <> "" ->
  Sqref (foldl (fun d r => SetSqref r d) dd refs)
  = Join (Sqref dd :: refs) " ".
Proof.
  induction refs as [|r rest IH]; intros dd Hne; [reflexivity|].
  cbn [foldl].
  destruct (SetSqref_not_empty r dd Hne) as [Heq Hne'].
  by rewrite IH, Heq, Join_glue.
Qed.

(** X6: a chain of [SetSqref] calls joins the references with single
    spaces: after the reference the rule had, when it had one, and
    otherwise from the first reference on, when that is not empty. The
    formulas are left alone. *)
Theorem SetSqref_chain (refs : list string) (dd : DataValidation) :
  (Sqref dd <> "" ->
   Sqref (foldl (fun d r => SetSqref r d) dd refs)
   = Join (Sqref dd :: refs) " ") /\
  (Sqref dd = "" ->
   forall r rest, refs = r :: rest -> r <> "" ->
   Sqref (foldl (fun d r => SetSqref r d) dd refs) = Join refs " ") /\
  Formula1 (foldl (fun d r => SetSqref r d) dd refs) = Formula1 dd /\
  Formula2 (foldl (fun d r => SetSqref r d) dd refs) = Formula2 dd.
Proof.
  split; [apply SetSqref_chain_not_empty|]. split.
  - intros He r rest -> Hr. cbn [foldl].
    rewrite SetSqref_chain_not_empty.
    + cbn [SetSqref Sqref]. by rewrite He.
    + cbn [SetSqref Sqref]. by rewrite He.
  - revert dd. induction refs as [|r rest IH]; intros dd; [done|].
    cbn [foldl]. destruct (IH (SetSqref r dd)) as [-> ->]. done.
Qed.

(** ** The validations of a worksheet *)

Lemma AddDataValidation_rules (dv : option nat) (xlsx : xlsxWorksheet) :
  rulesOf (AddDataValidation dv xlsx) = rulesOf xlsx ++ [dv] /\
  exists v, DataValidations (AddDataValidation dv xlsx) = Some v /\
            Count v = Z.of_nat (length (rulesOf xlsx) + 1).
Proof.
  unfold AddDataValidation, rulesOf.
  destruct (DataValidations xlsx) as [v|]; cbn.
  - split; [done|]. eexists. split; [done|]. cbn. by rewrite length_app.
  - split; [done|]. by eexists.
Qed.

(** X7: after any chain of [AddDataValidation] calls on a worksheet the
    rules are those it had followed by the added ones in the order of the
    calls, and, when a rule was added, the stored count is the number of
    rules, whatever the count was before. *)
Theorem AddDataValidation_chain (dvs : list (option nat))
    (xlsx : xlsxWorksheet) :
  rulesOf (foldl (fun x dv => AddDataValidation dv x) xlsx dvs)
    = rulesOf xlsx ++ dvs /\
  (dvs <> [] ->
   exists v,
     DataValidations (foldl (fun x dv => AddDataValidation dv x) xlsx dvs)
       = Some v /\
     DataValidation_ v = rulesOf xlsx ++ dvs /\
     Count v = Z.of_nat (length (rulesOf xlsx ++ dvs))).
Proof.
  revert xlsx. induction dvs as [|dv dvs IH] using rev_ind; intros xlsx.
  - cbn. by rewrite app_nil_r.
  - rewrite foldl_app. cbn [foldl].
    destruct (IH xlsx) as [Hr _].
    destruct (AddDataValidation_rules dv
                (foldl (fun x dv => AddDataValidation dv x) xlsx dvs))
      as (Hr' & v & Hv & Hc).
    rewrite Hr in Hr', Hc. rewrite <- app_assoc in Hr'.
    split; [exact Hr'|]. intros _. exists v. split; [done|].
    unfold rulesOf in Hr' at 1. rewrite Hv in Hr'.
    split; [done|]. rewrite Hc, app_assoc, !length_app. cbn. done.
Qed.

End ValidationExtra.

(** * Further properties of chart options *)

Module ChartsExtra.
Import Charts ChartsNotions Tables ChartsTheory.

#[local] Arguments chartValAxNumFmtFormatCode : simpl never.

(** ** What defaulting leaves alone *)






(** ** Charts at rest *)

Lemma parseChart_at_rest fs c :
  chartAtRest fs c -> parseChart fs c = (fs, c).
Proof.
  intros (Hw & Hh & Hpo & Hlk & Hsx & Hsy & Hpos & Ht & Hvc & Hsb).
  rewrite parseChart_fields, (parseTitle_at_rest _ _ Ht).
  destruct c as [t [w h] [ox oy sx sy po la lk] [pos slk] title vc sb].
  cbn in *. rewrite Hsx, Hsy.
  destruct (Z.eqb_spec w 0); [done|]. destruct (Z.eqb_spec h 0); [done|].
  destruct (String.eqb_spec pos ""); [done|].
  destruct (String.eqb_spec sb ""); [done|].
  by destruct po, lk, vc.
Qed.

Lemma parseChart_rests fs c fs1 c1 :
  parseChart fs c = (fs1, c1) -> chartAtRest fs1 c1.
Proof.
  rewrite parseChart_fields.
  destruct (parseTitle fs (Title c)) as [fsa runs] eqn:Ht.
  cbn [fst snd]. intros [= <- <-]. unfold chartAtRest. fields.
  split; [by destruct (Z.eqb_spec (Width (Dimension c)) 0)|].
  split; [by destruct (Z.eqb_spec (Height (Dimension c)) 0)|].
  split; [done|]. split; [done|].
  split; [by destruct (PrimFloat.eqb (ScaleX (Format c)) 0) eqn:E|].
  split; [by destruct (PrimFloat.eqb (ScaleY (Format c)) 0) eqn:E|].
  split; [by destruct (String.eqb_spec (Position (Legend c)) "")|].
  split; [by eapply parseTitle_rests|].
  split; [done|]. by destruct (String.eqb_spec (ShowBlanksAs c) "").
Qed.

(** Defaulting changes nothing on a chart at rest. *)
Lemma parseChartOptions_at_rest_fixed (h : Heap) (a : nat) (c : Chart) :
  charts h !! a = Some c -> chartAtRest (fonts h) c ->
  parseChartOptions (Some a) h = Some (h, (Some a, None)).
Proof.
  intros Hc Hrest. rewrite (parseChartOptions_chart _ _ _ Hc).
  rewrite (parseChart_at_rest _ _ Hrest). cbn [fst snd].
  rewrite (list_insert_id _ _ _ Hc). by destruct h.
Qed.

(** X9: [parseChartOptions] leaves the whole store as it is exactly when
    the chart is at rest: no tested field at its zero value, every run of
    the title with a font whose colour is set and whose size is not
    zero. *)
Theorem parseChartOptions_fixed_iff_at_rest (h : Heap) (a : nat)
    (c : Chart) :
  charts h !! a = Some c ->
  (chartAtRest (fonts h) c <->
   parseChartOptions (Some a) h = Some (h, (Some a, None))).
Proof.
  intros Hc. split; [by apply parseChartOptions_at_rest_fixed|].
  rewrite (parseChartOptions_chart _ _ _ Hc).
  intros [= Heq]. destruct (parseChart (fonts h) c) as [fs1 c1] eqn:Hp.
  cbn [fst snd] in Heq.
  assert (Hfs : fs1 = fonts h) by (by rewrite <- Heq).
  assert (Hc1 : c1 = c).
  { assert (Hl : charts h !! a = Some c1).
    { rewrite <- Heq at 1. cbn [charts]. apply list_lookup_insert_eq.
      by eapply lookup_lt_Some. }
    congruence. }
  subst fs1 c1. by eapply parseChart_rests.
Qed.

Lemma parseChartOptions_fixed_iff_at_rest_witness :
  charts exampleHeap !! 2%nat = Some (zeroChart Line) /\
  ~ chartAtRest (fonts exampleHeap) (zeroChart Line).
Proof.
  split; [reflexivity|].
  intros Hrest.
  apply (parseChartOptions_fixed_iff_at_rest exampleHeap 2 _ eq_refl) in Hrest.
  vm_compute in Hrest. discriminate Hrest.
Defined.

(** A chart at rest stays at rest, and as it is, when any chart of the
    store is defaulted. *)
Lemma parseChartOptions_keeps_rest p h h1 r b c :
  parseChartOptions p h = Some (h1, r) ->
  charts h !! b = Some c -> chartAtRest (fonts h) c ->
  charts h1 !! b = Some c /\ chartAtRest (fonts h1) c.
Proof.
  intros Hp Hc Hrest. destruct p as [a|]; [|by injection Hp as <- <-].
  destruct (decide (a = b)) as [->|Hne].
  - rewrite (parseChartOptions_at_rest_fixed _ _ _ Hc Hrest) in Hp.
    by injection Hp as <- <-.
  - unfold parseChartOptions in Hp.
    destruct (charts h !! a) as [ca|] eqn:Hca; [|done]. cbn in Hp.
    destruct (parseChart (fonts h) ca) as [fs1 c1] eqn:Hpc.
    injection Hp as <- <-. cbn [charts fonts].
    split; [by rewrite list_lookup_insert_ne|].
    rewrite parseChart_fields in Hpc.
    destruct (parseTitle (fonts h) (Title ca)) as [fsa runs] eqn:Ht.
    cbn [fst snd] in Hpc. injection Hpc as <- _.
    destruct Hrest as (? & ? & ? & ? & ? & ? & ? & Hruns & ? & ?).
    repeat (split; [done|]). split; [|done].
    eapply Forall_impl; [exact Hruns|].
    intros r0 Hr0. by eapply parseTitle_keeps.
Qed.

Lemma parseChartOptions_rests h a h1 r :
  parseChartOptions (Some a) h = Some (h1, r) ->
  exists c1, charts h1 !! a = Some c1 /\ chartAtRest (fonts h1) c1.
Proof.
  intros Hp. unfold parseChartOptions in Hp.
  destruct (charts h !! a) as [c|] eqn:Hc; [|done]. cbn in Hp.
  destruct (parseChart (fonts h) c) as [fs1 c1] eqn:Hpc.
  injection Hp as <- <-. exists c1. cbn [charts fonts].
  split; [|by eapply parseChart_rests].
  apply list_lookup_insert_eq. by eapply lookup_lt_Some.
Qed.

Lemma allAtRest_keeps p h h1 r ps :
  parseChartOptions p h = Some (h1, r) ->
  allAtRest h ps -> allAtRest h1 ps.
Proof.
  intros Hp Hall. unfold allAtRest in *.
  eapply Forall_impl; [exact Hall|].
  intros q Hq b ->. destruct (Hq b eq_refl) as (c & Hc & Hrest).
  exists c. by eapply parseChartOptions_keeps_rest.
Qed.

Lemma parseAll_keeps ps : forall h h1 qs,
  parseAll ps h = Some h1 -> allAtRest h qs -> allAtRest h1 qs.
Proof.
  induction ps as [|p ps IH]; intros h h1 qs H Hq; cbn in H.
  - by injection H as <-.
  - destruct (parseChartOptions p h) as [[ha r]|] eqn:Hp; [|done].
    cbn in H. eapply IH; [exact H|]. by eapply allAtRest_keeps.
Qed.

Lemma parseAll_rests ps : forall h h1,
  parseAll ps h = Some h1 -> allAtRest h1 ps.
Proof.
  induction ps as [|p ps IH]; intros h h1 H; cbn in H.
  - constructor.
  - destruct (parseChartOptions p h) as [[ha r]|] eqn:Hp; [|done].
    cbn in H. constructor; [|by eapply IH].
    intros b ->. destruct (parseChartOptions_rests _ _ _ _ Hp)
      as (c1 & Hc1 & Hrest).
    assert (Hone : allAtRest ha [Some b]).
    { constructor; [|constructor]. intros b' [= <-]. eauto. }
    apply (parseAll_keeps _ _ _ _ H) in Hone.
    apply Forall_cons in Hone as [Hone _]. by apply Hone.
Qed.

Lemma parseAll_at_rest ps : forall h,
  allAtRest h ps -> parseAll ps h = Some h.
Proof.
  induction ps as [|p ps IH]; intros h Hall; [reflexivity|].
  apply Forall_cons in Hall as [Hp Hps]. cbn [parseAll].
  destruct p as [b|].
  - destruct (Hp b eq_refl) as (c & Hc & Hrest).
    apply (parseChartOptions_at_rest_fixed _ _ _ Hc) in Hrest.
    rewrite Hrest. cbn. by apply IH.
  - cbn. by apply IH.
Qed.

Lemma parseAll_types ps : forall h h1,
  parseAll ps h = Some h1 -> forall q, chartTypeAt h1 q = chartTypeAt h q.
Proof.
  induction ps as [|p ps IH]; intros h h1 H q; cbn in H.
  - by injection H as <-.
  - destruct (parseChartOptions p h) as [[ha r]|] eqn:Hp; [|done].
    cbn in H. rewrite (IH _ _ H).
    by eapply parseChartOptions_types.
Qed.

(** X10: when the primary chart and every combo chart are charts of
    supported types, [getChartOptions] succeeds, returns the pointers it
    was given in their order, leaves every one of these charts at rest
    and of the type it had, and a second call on the store it left
    returns the same and changes nothing. *)
Theorem getChartOptions_defaults_all (h : Heap) (opts : option nat)
    (combo : list (option nat)) :
  Forall (supportedAt h) (opts :: combo) ->
  exists h1,
    getChartOptions opts combo h = Some (h1, (opts, combo, None)) /\
    allAtRest h1 (opts :: combo) /\
    (forall q, chartTypeAt h1 q = chartTypeAt h q) /\
    getChartOptions opts combo h1 = Some (h1, (opts, combo, None)).
Proof.
  intros Hall. pose proof Hall as [(t & Ht & [x Hx]) Hcombo]%Forall_cons.
  destruct opts as [a|]; [|done].
  pose proof Ht as (c & Hc & <-)%chartTypeAt_chart.
  destruct (getChartOptions_combo_supported h a c combo Hc Hcombo)
    as (h1 & Hp & Hg).
  rewrite Hx in Hg. exists h1. split; [exact Hg|].
  pose proof (parseAll_rests _ _ _ Hp) as Hrest.
  pose proof (parseAll_types _ _ _ Hp) as Hty.
  split; [exact Hrest|]. split; [exact Hty|].
  assert (Ht1 : chartTypeAt h1 (Some a) = Some (Type_ c)) by (by rewrite Hty).
  apply chartTypeAt_chart in Ht1 as (c1 & Hc1 & Hty1).
  destruct (getChartOptions_combo_supported h1 a c1 combo Hc1)
    as (h2 & Hp2 & Hg2).
  { eapply Forall_impl; [exact Hcombo|].
    intros q. by apply supportedAt_types. }
  rewrite (parseAll_at_rest _ _ Hrest) in Hp2. injection Hp2 as <-.
  by rewrite Hty1, Hx in Hg2.
Qed.

Lemma getChartOptions_defaults_all_witness :
  Forall (supportedAt exampleHeap) [Some 3%nat; Some 2%nat; Some 3%nat] /\
  exists h1,
    getChartOptions (Some 3%nat) [Some 2%nat; Some 3%nat] exampleHeap
    = Some (h1, (Some 3%nat, [Some 2%nat; Some 3%nat], None)) /\
    getChartOptions (Some 3%nat) [Some 2%nat; Some 3%nat] h1
    = Some (h1, (Some 3%nat, [Some 2%nat; Some 3%nat], None)).
Proof.
  assert (Hall : Forall (supportedAt exampleHeap)
                        [Some 3%nat; Some 2%nat; Some 3%nat]).
  { repeat constructor.
    - exists Col. split; [reflexivity|]. vm_compute. eauto.
    - exists Line. split; [reflexivity|]. vm_compute. eauto.
    - exists Col. split; [reflexivity|]. vm_compute. eauto. }
  split; [exact Hall|].
  destruct (getChartOptions_defaults_all exampleHeap (Some 3%nat)
              [Some 2%nat; Some 3%nat] Hall) as (h1 & H1 & _ & _ & H2).
  exists h1. split; [exact H1|exact H2].
Defined.

(** ** What [getChartOptions] leaves alone *)





(** ** The lookup tables *)

(** A property of chart types that holds of the types 0 to 54 and of the
    types outside this range holds of all. *)
Lemma chart_types_ind (P : Z -> Prop) :
  Forall P (seqZ 0 55) -> (forall t, ~ 0 <= t <= 54 -> P t) ->
  forall t, P t.
Proof.
  intros Hin Hout t. destruct (decide (0 <= t <= 54)); [|by apply Hout].
  rewrite Forall_forall in Hin. apply Hin, elem_of_seqZ. lia.
Qed.

Lemma dom_supported : dom chartValAxNumFmtFormatCode = list_to_set (seqZ 0 55).
Proof. apply (bool_decide_unpack _). vm_compute. exact I. Qed.

(** A table whose keys are supported types has no entry outside 0 to
    54. *)
Lemma lookup_unsupported {A} (m : gmap Z A) (t : Z) :
  dom m ⊆ dom chartValAxNumFmtFormatCode -> ~ 0 <= t <= 54 -> m !! t = None.
Proof.
  intros Hsub Ht. apply not_elem_of_dom. intros Hin%Hsub.
  rewrite dom_supported, elem_of_list_to_set, elem_of_seqZ in Hin. lia.
Qed.

Lemma tables_subset :
  dom chartView3DRotX ⊆ dom chartValAxNumFmtFormatCode /\
  dom chartView3DRotY ⊆ dom chartValAxNumFmtFormatCode /\
  dom plotAreaChartOverlap ⊆ dom chartValAxNumFmtFormatCode /\
  dom chartView3DPerspective ⊆ dom chartValAxNumFmtFormatCode /\
  dom chartView3DRAngAx ⊆ dom chartValAxNumFmtFormatCode /\
  dom chartValAxCrossBetween ⊆ dom chartValAxNumFmtFormatCode /\
  dom plotAreaChartGrouping ⊆ dom chartValAxNumFmtFormatCode /\
  dom plotAreaChartBarDir ⊆ dom chartValAxNumFmtFormatCode /\
  dom valTickLblPos ⊆ dom chartValAxNumFmtFormatCode.
Proof.
  repeat split; apply (bool_decide_unpack _); vm_compute; exact I.
Qed.

(** X12: no lookup table keyed by chart type has an entry for a type that
    is not supported; a supported type has a cross-between mode and a
    right-angle-axes flag or is [WireframeContour], and has rotations or
    is [Bubble] or [Bubble3D]. *)
Theorem tables_cover_supported_types (t : Z) :
  (is_Some (chartView3DRotX !! t) \/ is_Some (chartView3DRotY !! t) \/
   is_Some (plotAreaChartOverlap !! t) \/
   is_Some (chartView3DPerspective !! t) \/
   is_Some (chartView3DRAngAx !! t) \/
   is_Some (chartValAxCrossBetween !! t) \/
   is_Some (plotAreaChartGrouping !! t) \/
   is_Some (plotAreaChartBarDir !! t) \/
   is_Some (valTickLblPos !! t) ->
   is_Some (chartValAxNumFmtFormatCode !! t)) /\
  (is_Some (chartValAxNumFmtFormatCode !! t) ->
   is_Some (chartValAxCrossBetween !! t) /\
   (is_Some (chartView3DRAngAx !! t) \/ t = WireframeContour) /\
   (is_Some (chartView3DRotX !! t) /\ is_Some (chartView3DRotY !! t) \/
    t = Bubble \/ t = Bubble3D)).
Proof.
  destruct tables_subset as (H1 & H2 & H3 & H4 & H5 & H6 & H7 & H8 & H9).
  split.
  - rewrite <- !elem_of_dom.
    intros [H|[H|[H|[H|[H|[H|[H|[H|H]]]]]]]];
      [exact (H1 _ H)|exact (H2 _ H)|exact (H3 _ H)|exact (H4 _ H)
      |exact (H5 _ H)|exact (H6 _ H)|exact (H7 _ H)|exact (H8 _ H)
      |exact (H9 _ H)].
  - pattern t. revert t. apply chart_types_ind.
    + apply (bool_decide_unpack _). vm_compute. exact I.
    + intros t Ht Hs. by apply chartValAxNumFmtFormatCode_keys in Hs.
Qed.

(** X13: the number format of the value axis is the percentage format
    exactly for the chart types whose grouping is percent-stacked. *)
Theorem percent_format_iff_percent_stacked (t : Z) :
  chartValAxNumFmtFormatCode !! t = Some "0%" <->
  plotAreaChartGrouping !! t = Some "percentStacked".
Proof.
  destruct tables_subset as (_ & _ & _ & _ & _ & _ & H7 & _).
  pattern t. revert t. apply chart_types_ind.
  - apply (bool_decide_unpack _). vm_compute. exact I.
  - intros t Ht. rewrite (lookup_unsupported _ _ H7 Ht).
    rewrite (lookup_unsupported chartValAxNumFmtFormatCode t); done.
Qed.

(** X14: the plot area has an overlap, and then of 100, exactly for the
    bar and column charts that are flat (no rotation about the X axis)
    and stacked or percent-stacked. *)
Theorem overlap_iff_flat_stacked_bars (t : Z) :
  (is_Some (plotAreaChartOverlap !! t) <->
   plotAreaChartOverlap !! t = Some 100) /\
  (plotAreaChartOverlap !! t = Some 100 <->
   chartView3DRotX !! t = Some 0 /\
   (plotAreaChartBarDir !! t = Some "bar" \/
    plotAreaChartBarDir !! t = Some "col") /\
   (plotAreaChartGrouping !! t = Some "stacked" \/
    plotAreaChartGrouping !! t = Some "percentStacked")).
Proof.
  destruct tables_subset as (H1 & _ & H3 & _).
  pattern t. revert t. apply chart_types_ind.
  - apply (bool_decide_unpack _). vm_compute. exact I.
  - intros t Ht. rewrite (lookup_unsupported _ _ H3 Ht).
    rewrite (lookup_unsupported _ _ H1 Ht).
    split; [split; [by intros [? ?]|done]|]. split; [done|by intros [? _]].
Qed.

(** X15: a chart whose legend position was empty has, after defaulting,
    a position that the table of legend positions knows: bottom, with the
    keyword b. *)
Theorem default_legend_position_known (h : Heap) (a : nat) (c : Chart) :
  charts h !! a = Some c -> Position (Legend c) = "" ->
  exists h1 c1,
    parseChartOptions (Some a) h = Some (h1, (Some a, None)) /\
    charts h1 !! a = Some c1 /\
    chartLegendPosition !! Position (Legend c1) = Some "b".
Proof.
  intros Hc Hpos.
  pose proof (parseChartOptions_chart _ _ _ Hc) as Hp.
  eexists _, _. split; [exact Hp|]. cbn [charts]. split.
  - apply list_lookup_insert_eq. by eapply lookup_lt_Some.
  - rewrite parseChart_fields. fields. by rewrite Hpos.
Qed.

Lemma default_legend_position_known_witness :
  charts exampleHeap !! 2%nat = Some (zeroChart Line) /\
  exists h1 c1,
    parseChartOptions (Some 2%nat) exampleHeap
    = Some (h1, (Some 2%nat, None)) /\
    charts h1 !! 2%nat = Some c1 /\
    chartLegendPosition !! Position (Legend c1) = Some "b".
Proof.
  split; [reflexivity|].
  exact (default_legend_position_known exampleHeap 2 _ eq_refl eq_refl).
Defined.

End ChartsExtra.

(** * Further properties of chart assembly *)

Module AssemblyExtra.
Import Charts Assembly Sheets Demos.

(** ** Counting chart parts *)

Lemma prefix_spec (sub s : string) :
  String.prefix sub s = true <-> exists post, s = sub +:+ post.
Proof.
  revert sub. induction s as [|b s IH]; intros [|a sub]; cbn.
  - split; [by exists ""|done].
  - split; [done|]. by intros [post Hpost].
  - split; [by eexists|done].
  - destruct (ascii_dec a b) as [->|Hne].
    + rewrite IH. split; intros [post Hpost]; exists post.
      * by rewrite Hpost.
      * by injection Hpost.
    + split; [done|]. intros [post Hpost]. injection Hpost as -> _. done.
Qed.

(** [strings.Contains]: [s] has [sub] at some position. *)
Lemma Contains_spec (s sub : string) :
  Contains s sub = true <-> exists pre post, s = pre +:+ sub +:+ post.
Proof.
  induction s as [|c s IH]; cbn [Contains].
  - rewrite orb_false_r, prefix_spec. split.
    + intros [post Hpost]. by exists "", post.
    + intros (pre & post & H). destruct pre; [by exists post|done].
  - rewrite orb_true_iff, prefix_spec, IH. split.
    + intros [[post Hpost]|(pre & post & Hs)].
      * by exists "", post.
      * exists (String c pre), post. by rewrite Hs.
    + intros ([|c' pre] & post & Hs).
      * left. by exists post.
      * right. exists pre, post. by injection Hs.
Qed.

(** The function that [countCharts] folds over the parts. *)
Lemma countCharts_step_comm (k1 k2 : string) (n : Z) :
  (if Contains k1 "xl/charts/chart"
   then (if Contains k2 "xl/charts/chart" then n + 1 else n) + 1
   else if Contains k2 "xl/charts/chart" then n + 1 else n)
  = (if Contains k2 "xl/charts/chart"
     then (if Contains k1 "xl/charts/chart" then n + 1 else n) + 1
     else if Contains k1 "xl/charts/chart" then n + 1 else n).
Proof. by destruct (Contains k1 _), (Contains k2 _). Qed.

Lemma countCharts_insert_fresh {R} (f : File R) (k v : string) :
  Pkg f !! k = None ->
  countCharts (mkFile (<[k := v]> (Pkg f)) (Other f))
  = countCharts f + (if Contains k "xl/charts/chart" then 1 else 0).
Proof.
  intros Hk. unfold countCharts. cbn [Pkg].
  rewrite map_fold_insert_L;
    [destruct (Contains k _); lia|intros; apply countCharts_step_comm|done].
Qed.

Lemma countCharts_delete {R} (f : File R) (k v : string) :
  Pkg f !! k = Some v ->
  countCharts (mkFile (delete k (Pkg f)) (Other f))
  = countCharts f - (if Contains k "xl/charts/chart" then 1 else 0).
Proof.
  intros Hk. unfold countCharts. cbn [Pkg].
  rewrite (map_fold_delete_L _ _ k v (Pkg f));
    [destruct (Contains k _); lia|intros; apply countCharts_step_comm|done].
Qed.

Lemma countCharts_size {R} (f : File R) :
  countCharts f
  = Z.of_nat (size (filter (fun kv => Contains kv.1 "xl/charts/chart" = true)
                           (Pkg f))).
Proof.
  destruct f as [pkg other]. unfold countCharts. cbn [Pkg].
  induction pkg as [|k v pkg Hk IH] using map_ind.
  - by rewrite map_fold_empty, map_filter_empty, map_size_empty.
  - rewrite map_fold_insert_L;
      [|intros; apply countCharts_step_comm|done].
    rewrite IH. destruct (Contains k "xl/charts/chart") eqn:E.
    + rewrite map_filter_insert_True by done.
      rewrite map_size_insert_None; [lia|].
      apply map_lookup_filter_None. by left.
    + rewrite map_filter_insert_False by (cbn; congruence).
      by rewrite delete_id.
Qed.

(** X16: [countCharts] is the number of parts whose path passes the test
    of [countCharts], and a path passes it exactly when it has
    [xl/charts/chart] somewhere in it; the count lies between 0 and the
    number of parts, and is 0 for a package without parts. *)
Theorem countCharts_counts_paths {R} (f : File R) :
  countCharts f
  = Z.of_nat
      (size (filter (fun kv => Contains kv.1 "xl/charts/chart" = true)
                    (Pkg f))) /\
  (forall k,
     Contains k "xl/charts/chart" = true <->
     exists pre post, k = pre +:+ "xl/charts/chart" +:+ post) /\
  0 <= countCharts f <= Z.of_nat (size (Pkg f)) /\
  (Pkg f = ∅ -> countCharts f = 0).
Proof.
  split; [apply countCharts_size|]. split; [intros k; apply Contains_spec|].
  split.
  - rewrite countCharts_size. split; [lia|].
    apply Nat2Z.inj_le, map_subseteq_size, map_filter_subseteq.
  - intros He. unfold countCharts. by rewrite He, map_fold_empty.
Qed.

(** X17: storing a part under a path that is not in the package raises
    [countCharts] by one when the path has [xl/charts/chart] in it and
    leaves it otherwise; storing under a path that is in the package
    leaves it; removing a part lowers it by one when the path has
    [xl/charts/chart] in it. *)
Theorem countCharts_store_remove {R} (f : File R) (k v : string) :
  (Pkg f !! k = None ->
   countCharts (mkFile (<[k := v]> (Pkg f)) (Other f))
   = countCharts f + (if Contains k "xl/charts/chart" then 1 else 0)) /\
  (is_Some (Pkg f !! k) ->
   countCharts (mkFile (<[k := v]> (Pkg f)) (Other f)) = countCharts f) /\
  (is_Some (Pkg f !! k) ->
   countCharts (mkFile (delete k (Pkg f)) (Other f))
   = countCharts f - (if Contains k "xl/charts/chart" then 1 else 0)).
Proof.
  split; [apply countCharts_insert_fresh|]. split.
  - intros [v0 Hv0].
    pose proof (countCharts_delete f k v0 Hv0) as Hdel.
    pose proof (countCharts_insert_fresh
                  (mkFile (delete k (Pkg f)) (Other f)) k v) as Hins.
    cbn [Pkg Other] in Hins. rewrite insert_delete_eq in Hins.
    rewrite Hins by apply lookup_delete_eq. rewrite Hdel.
    destruct (Contains k _); lia.
  - intros [v0 Hv0]. by apply (countCharts_delete f k v0).
Qed.

(** ** [AddChart] *)

#[local] Arguments chartValAxNumFmtFormatCode : simpl never.

(** A primary chart of an unsupported type makes [getChartOptions] fail,
    whatever the combo charts of the store are. *)
Lemma getChartOptions_unsupported_fails h a c combo :
  charts h !! a = Some c ->
  chartValAxNumFmtFormatCode !! Type_ c = None ->
  Forall (live h) combo ->
  exists h1 comboCharts e,
    getChartOptions (Some a) combo h
    = Some (h1, (Some a, comboCharts, Some e)).
Proof.
  intros Hc Hn Hlive.
  destruct (ChartsTheory.combo_cases h combo Hlive)
    as [Hall|(pre & p & post & e & -> & Hpre & Hrej)].
  - destruct (ChartsTheory.getChartOptions_combo_supported h a c combo Hc Hall)
      as (h1 & _ & Hg).
    rewrite Hn in Hg. by eexists _, _, _.
  - destruct (ChartsTheory.getChartOptions_combo_rejected h a pre p post e)
      as (h1 & _ & Hg); [by eexists|done|done|].
    by eexists _, _, _.
Qed.

Section AddChartMore.

Context {R Worksheet NameSpace : Type}.
Variable workSheetReader :
  string -> File R -> File R * (option Worksheet * option error).
Variable countDrawings : File R -> File R * Z.
Variable prepareDrawing :
  option Worksheet -> Z -> string -> string -> File R ->
  File R * (Z * string).
Variable addRels :
  string -> string -> string -> string -> File R -> File R * Z.
Variable addDrawingChart :
  string -> string -> string -> Z -> Z -> Z -> nat ->
  File R * Heap -> File R * Heap * option error.
Variable addChart :
  option nat -> list (option nat) -> File R * Heap -> File R * Heap.
Variable addContentTypePart :
  Z -> string -> File R -> File R * option error.
Variable addSheetNameSpace : string -> NameSpace -> File R -> File R.
Variable SourceRelationshipChart : string.
Variable SourceRelationship : NameSpace.

(** X18: on a sheet that the worksheet reader resolves, [AddChart] with a
    chart that [getChartOptions] rejects returns the error of
    [getChartOptions] and the document is the one the reader left,
    whatever the other collaborators are: nothing has been allocated.
    This is so for a [nil] chart (invalid parameter) and for a chart of an
    unsupported type with any combo charts of the store. *)
Theorem AddChart_rejected_chart (sheet cell : string) (chart : option nat)
    (combo : list (option nat)) (f f1 : File R) (h : Heap)
    (ws : option Worksheet) :
  workSheetReader sheet f = (f1, (ws, None)) ->
  (forall h1 opts comboCharts e,
     getChartOptions chart combo h = Some (h1, (opts, comboCharts, Some e)) ->
     AddChart workSheetReader countDrawings prepareDrawing addRels
              addDrawingChart addChart addContentTypePart addSheetNameSpace
              SourceRelationshipChart SourceRelationship
              sheet cell chart combo (f, h)
     = Some (f1, h1, Some e)) /\
  (chart = None ->
   AddChart workSheetReader countDrawings prepareDrawing addRels
            addDrawingChart addChart addContentTypePart addSheetNameSpace
            SourceRelationshipChart SourceRelationship
            sheet cell chart combo (f, h)
   = Some (f1, h, Some ErrParameterInvalid)) /\
  (forall a c,
     chart = Some a -> charts h !! a = Some c ->
     chartValAxNumFmtFormatCode !! Type_ c = None ->
     Forall (live h) combo ->
     exists h1 e,
       AddChart workSheetReader countDrawings prepareDrawing addRels
                addDrawingChart addChart addContentTypePart addSheetNameSpace
                SourceRelationshipChart SourceRelationship
                sheet cell chart combo (f, h)
       = Some (f1, h1, Some e)).
Proof.
  intros Hws.
  assert (Hrej : forall h1 opts comboCharts e,
    getChartOptions chart combo h = Some (h1, (opts, comboCharts, Some e)) ->
    AddChart workSheetReader countDrawings prepareDrawing addRels
             addDrawingChart addChart addContentTypePart addSheetNameSpace
             SourceRelationshipChart SourceRelationship
             sheet cell chart combo (f, h)
    = Some (f1, h1, Some e)).
  { intros h1 opts comboCharts e Hg. unfold AddChart. by rewrite Hws, Hg. }
  split; [exact Hrej|]. split.
  - intros ->. by apply (Hrej h None []).
  - intros a c -> Hc Hn Hlive.
    destruct (getChartOptions_unsupported_fails h a c combo Hc Hn Hlive)
      as (h1 & cc & e & Hg).
    exists h1, e. by eapply Hrej.
Qed.

(** X19: the error of registering the content type of the drawings is
    dropped: when the sheet is resolved, the charts are accepted, and
    neither anchoring the chart nor registering the content type of the
    chart fails, [AddChart] returns no error, whatever the registration
    for the drawings returns. *)
Theorem AddChart_drawings_error_dropped (sheet cell : string)
    (chart : option nat) (combo comboCharts : list (option nat))
    (f f1 : File R) (h h1 : Heap) (ws : option Worksheet) (a : nat) :
  workSheetReader sheet f = (f1, (ws, None)) ->
  getChartOptions chart combo h = Some (h1, (Some a, comboCharts, None)) ->
  is_Some (charts h1 !! a) ->
  (forall sh xml cl w ht rid ad st,
     snd (addDrawingChart sh xml cl w ht rid ad st) = None) ->
  (forall n g, snd (addContentTypePart n "chart" g) = None) ->
  exists f2 h2,
    AddChart workSheetReader countDrawings prepareDrawing addRels
             addDrawingChart addChart addContentTypePart addSheetNameSpace
             SourceRelationshipChart SourceRelationship
             sheet cell chart combo (f, h)
    = Some (f2, h2, None).
Proof.
  intros Hws Hg [c Hc] Hanchor Hct. unfold AddChart. rewrite Hws, Hg. cbn.
  destruct (countDrawings f1) as [fa n].
  destruct (prepareDrawing _ _ _ _ fa) as [fb [drawingID drawingXML]].
  destruct (addRels _ _ _ _ fb) as [fc rid]. rewrite Hc. cbn.
  match goal with |- context [addDrawingChart ?a1 ?a2 ?a3 ?a4 ?a5 ?a6 ?a7 ?a8] =>
    pose proof (Hanchor a1 a2 a3 a4 a5 a6 a7 a8) as Ha;
    destruct (addDrawingChart a1 a2 a3 a4 a5 a6 a7 a8) as [[fd hd] err] end.
  cbn in Ha. subst err.
  destruct (addChart _ _ (fd, hd)) as [fe he].
  match goal with |- context [addContentTypePart ?n "chart" ?g] =>
    pose proof (Hct n g) as Hb;
    destruct (addContentTypePart n "chart" g) as [ff err] end.
  cbn in Hb. subst err.
  destruct (addContentTypePart _ "drawings" ff) as [fg err].
  by eexists _, _.
Qed.

End AddChartMore.

Lemma AddChart_rejected_chart_witness :
  demoWorkSheetReader "Sheet1" demoFile = (demoFile, (Some tt, None)) /\
  demoAddChart "Sheet1" "E1" None [] (demoFile, exampleHeap)
  = Some (demoFile, exampleHeap, Some ErrParameterInvalid).
Proof.
  split; [reflexivity|]. unfold demoAddChart.
  refine (proj1 (proj2 (AddChart_rejected_chart
                   _ _ _ _ _ _ _ _ _ _ _ _ _ _ _ _ _ _ _)) eq_refl).
  reflexivity.
Defined.

Lemma AddChart_drawings_error_dropped_witness :
  exists f2 h2,
    demoAddChartDrawingsFail "Sheet1" "E1" (Some 2%nat) []
                             (demoFile, exampleHeap)
    = Some (f2, h2, None).
Proof.
  unfold demoAddChartDrawingsFail.
  eapply AddChart_drawings_error_dropped.
  - reflexivity.
  - vm_compute. reflexivity.
  - vm_compute. eauto.
  - intros. reflexivity.
  - intros. reflexivity.
Defined.

(** ** [AddChartSheet] *)

Lemma wrapInt_small (n : Z) : - 2 ^ 63 <= n < 2 ^ 63 -> wrapInt n = n.
Proof. intros Hn. unfold wrapInt. rewrite Z.mod_small; lia. Qed.




Section AddChartSheetFacts.

Context {W R NameSpace C : Type}.
Abbreviation Doc := (File (SheetState W R)).
Variable GetSheetIndex : string -> Doc -> Doc * (Z * option error).
Variable workbookReader :
  Doc -> Doc * (option (list xlsxSheet) * option error).
Variable countDrawings : Doc -> Doc * Z.
Variable prepareChartSheetDrawing :
  xlsxChartsheet C -> Z -> string -> Doc -> Doc * xlsxChartsheet C.
Variable addRels :
  string -> string -> string -> string -> Doc -> Doc * Z.
Variable addSheetDrawingChart :
  string -> Z -> nat -> Doc * Heap -> Doc * Heap * option error.
Variable addChart :
  option nat -> list (option nat) -> Doc * Heap -> Doc * Heap.
Variable addContentTypePart : Z -> string -> Doc -> Doc * option error.
Variable getWorkbookRelsPath : Doc -> Doc * string.
Variable setWorkbook : string -> Z -> Z -> Doc -> Doc.
Variable xmlMarshal : xlsxChartsheet C -> string * option error.
Variable addSheetNameSpace : string -> NameSpace -> Doc -> Doc.
Variable replaceNameSpaceBytes : string -> string -> Doc -> Doc * string.
Variable replaceRelationshipsBytes : string -> string.
Variable saveFileList : string -> string -> Doc -> Doc.
Variable ErrExistsSheet : error.
Variable SourceRelationshipChart : string.
Variable SourceRelationshipChartsheet : string.
Variable NameSpaceSpreadSheet : NameSpace.
Variable csZero : C.

Abbreviation AddChartSheet' :=
  (AddChartSheet GetSheetIndex workbookReader countDrawings
     prepareChartSheetDrawing addRels addSheetDrawingChart addChart
     addContentTypePart getWorkbookRelsPath setWorkbook xmlMarshal
     addSheetNameSpace replaceNameSpaceBytes replaceRelationshipsBytes
     saveFileList ErrExistsSheet SourceRelationshipChart
     SourceRelationshipChartsheet NameSpaceSpreadSheet csZero).

(** X21: [AddChartSheet] stops before anything is registered when the
    sheet index cannot be had (the error of [GetSheetIndex]), when the
    sheet name is taken (an index other than -1: the already-exists
    error), and when [getChartOptions] rejects the charts (its error): the
    document is the one [GetSheetIndex] left, with its count of sheets,
    its map of sheets and its parts, whatever the other collaborators
    are. *)
Theorem AddChartSheet_stops_early (sheet : string) (chart : option nat)
    (combo : list (option nat)) (f f1 : Doc) (h : Heap) (idx : Z)
    (err : option error) :
  GetSheetIndex sheet f = (f1, (idx, err)) ->
  (forall e, err = Some e ->
     AddChartSheet' sheet chart combo (f, h) = Some (f1, h, Some e)) /\
  (err = None -> idx <> -1 ->
   AddChartSheet' sheet chart combo (f, h)
   = Some (f1, h, Some ErrExistsSheet)) /\
  (err = None -> idx = -1 ->
   forall h1 opts comboCharts e,
     getChartOptions chart combo h = Some (h1, (opts, comboCharts, Some e)) ->
     AddChartSheet' sheet chart combo (f, h) = Some (f1, h1, Some e)) /\
  (err = None -> idx = -1 -> chart = None ->
   AddChartSheet' sheet chart combo (f, h)
   = Some (f1, h, Some ErrParameterInvalid)).
Proof.
  intros Hidx.
  assert (Hrej : err = None -> idx = -1 ->
    forall h1 opts comboCharts e,
      getChartOptions chart combo h = Some (h1, (opts, comboCharts, Some e)) ->
      AddChartSheet' sheet chart combo (f, h) = Some (f1, h1, Some e)).
  { intros -> -> h1 opts cc e Hg. unfold AddChartSheet.
    rewrite Hidx. cbn. by rewrite Hg. }
  split; [|split; [|split]].
  - intros e ->. unfold AddChartSheet. by rewrite Hidx.
  - intros -> Hne. unfold AddChartSheet. rewrite Hidx.
    by destruct (Z.eqb_spec idx (-1)).
  - exact Hrej.
  - intros He Hi ->. by apply (Hrej He Hi h None []).
Qed.

End AddChartSheetFacts.

Lemma AddChartSheet_stops_early_witness :
  demoGetSheetIndex "Sheet1" demoDoc = (demoDoc, (0, None)) /\
  demoAddChartSheet "Sheet1" (Some 2%nat) [] (demoDoc, exampleHeap)
  = Some (demoDoc, exampleHeap, Some demoErrExistsSheet).
Proof.
  split; [reflexivity|]. unfold demoAddChartSheet.
  refine (proj1 (proj2 (AddChartSheet_stops_early
                   _ _ _ _ _ _ _ _ _ _ _ _ _ _ _ _ _ _ _ _
                   "Sheet1" _ _ demoDoc demoDoc _ 0 None _)) eq_refl _);
    [reflexivity|discriminate].
Defined.

(** On a free sheet name the example goes through: the chart sheet is
    stored under the path of the new sheet ID, 2, and the map of sheets
    has the name. *)
Example demoAddChartSheet_Chart1 :
  (st ← demoAddChartSheet "Chart1" (Some 2%nat) [] (demoDoc, exampleHeap);
   let f := st.1.1 in
   Some (st.2, SheetCount (Other f), sheetMap (Other f) !! "Chart1",
         Pkg f !! "xl/chartsheets/sheet2.xml"))
  = Some (None, 2, Some "xl/chartsheets/sheet2.xml", Some "<chartsheet/>").
Proof. vm_compute. reflexivity. Qed.

(** ** [DeleteChart] *)

Lemma replaceFrom_skip (old new s1 s2 : string) :
  replaceFrom old new (String.length s1) (s1 +:+ s2)
  = replaceFrom old new 0 s2.
Proof.
  induction s1 as [|c s1 IH]; [by destruct s2|].
  change (String c s1 +:+ s2) with (String c (s1 +:+ s2)). exact IH.
Qed.

(** [strings.ReplaceAll] at an occurrence, and on a string without. *)
Lemma ReplaceAll_occurrence (old new s : string) :
  old <> "" ->
  ReplaceAll (old +:+ s) old new = new +:+ ReplaceAll s old new.
Proof.
  intros Hold. unfold ReplaceAll.
  destruct (String.eqb_spec old ""); [done|].
  destruct old as [|a old']; [done|].
  change (String a old' +:+ s) with (String a (old' +:+ s)).
  cbn [replaceFrom].
  assert (Hp : String.prefix (String a old') (String a (old' +:+ s)) = true)
    by (apply prefix_spec; by exists s).
  rewrite Hp.
  replace (String.length (String a old') - 1)%nat with (String.length old')
    by (cbn [String.length]; lia).
  by rewrite replaceFrom_skip.
Qed.

Lemma ReplaceAll_none (old new s : string) :
  old <> "" -> Contains s old = false -> ReplaceAll s old new = s.
Proof.
  intros Hold. unfold ReplaceAll.
  destruct (String.eqb_spec old ""); [done|].
  induction s as [|c s IH]; [done|].
  cbn [Contains replaceFrom]. intros [Hp Hc]%orb_false_iff.
  by rewrite Hp, IH.
Qed.

#[local] Arguments ReplaceAll : simpl never.

Section DeleteChartFacts.

Context {R Worksheet : Type}.
Variable CellNameToCoordinates : string -> Z * Z * option error.
Variable workSheetReader :
  string -> File R -> File R * (option Worksheet * option error).
Variable Drawing : Worksheet -> File R -> option xlsxDrawing.
Variable getSheetRelationshipsTargetByID :
  string -> string -> File R -> File R * string.
Variable deleteDrawing :
  Z -> Z -> string -> string -> File R -> File R * option error.

Abbreviation DeleteChart' :=
  (DeleteChart CellNameToCoordinates workSheetReader Drawing
               getSheetRelationshipsTargetByID deleteDrawing).

(** X22: [DeleteChart] with a cell name that has no coordinates returns
    the error and does not touch the document, not even to read the
    sheet; with a sheet that is not resolved it returns the error of the
    reader; on a worksheet without drawing part it returns no error and
    the document is the one the reader left: nothing is deleted. *)
Theorem DeleteChart_stops_early (sheet cell : string) (f : File R)
    (col row : Z) (err : option error) :
  CellNameToCoordinates cell = (col, row, err) ->
  (forall e, err = Some e -> DeleteChart' sheet cell f = Some (f, Some e)) /\
  (err = None ->
   forall f1 ws e, workSheetReader sheet f = (f1, (ws, Some e)) ->
   DeleteChart' sheet cell f = Some (f1, Some e)) /\
  (err = None ->
   forall f1 ws, workSheetReader sheet f = (f1, (Some ws, None)) ->
   Drawing ws f1 = None ->
   DeleteChart' sheet cell f = Some (f1, None)).
Proof.
  intros Hcell. split; [|split].
  - intros e ->. unfold DeleteChart. by rewrite Hcell.
  - intros -> f1 ws e Hws. unfold DeleteChart. by rewrite Hcell, Hws.
  - intros -> f1 ws Hws Hd. unfold DeleteChart. rewrite Hcell, Hws. cbn.
    by rewrite Hd.
Qed.

(** X23: on a worksheet with a drawing part whose relationship target is
    [../] followed by a path without two dots in a row, [DeleteChart]
    deletes, from the drawing part [xl/] followed by that path, the
    drawing of kind Chart at the column and row of the cell, counted from
    0, and returns what the deletion returns. *)
Theorem DeleteChart_deletes_chart (sheet cell path : string)
    (f f1 f2 : File R) (col row : Z) (ws : Worksheet)
    (drawing : xlsxDrawing) :
  CellNameToCoordinates cell = (col, row, None) ->
  - 2 ^ 63 < col < 2 ^ 63 -> - 2 ^ 63 < row < 2 ^ 63 ->
  workSheetReader sheet f = (f1, (Some ws, None)) ->
  Drawing ws f1 = Some drawing ->
  getSheetRelationshipsTargetByID sheet (RID drawing) f1
    = (f2, "../" +:+ path) ->
  Contains path ".." = false ->
  DeleteChart' sheet cell f
  = Some (deleteDrawing (col - 1) (row - 1) ("xl/" +:+ path) "Chart" f2).
Proof.
  intros Hcell Hcol Hrow Hws Hd Ht Hpath. unfold DeleteChart.
  rewrite Hcell, Hws. cbn. rewrite Hd, Ht.
  rewrite !wrapInt_small by lia.
  change ("../" +:+ path) with (".." +:+ "/" +:+ path).
  rewrite ReplaceAll_occurrence by done.
  rewrite ReplaceAll_none; [done|done|].
  change ("/" +:+ path) with (String "/" path). cbn [Contains].
  by rewrite Hpath.
Qed.

End DeleteChartFacts.

Lemma DeleteChart_stops_early_witness :
  demoCellNameToCoordinates "E0"
    = (0, 0, Some (ErrCollaborator "invalid cell name")) /\
  demoDeleteChart true "Sheet1" "E0" demoFile
    = Some (demoFile, Some (ErrCollaborator "invalid cell name")).
Proof.
  split; [reflexivity|]. unfold demoDeleteChart.
  refine (proj1 (DeleteChart_stops_early
                   _ _ _ _ _ "Sheet1" "E0" demoFile 0 0 _ _) _ eq_refl).
  reflexivity.
Defined.

Lemma DeleteChart_deletes_chart_witness :
  demoDeleteChart true "Sheet1" "E1" demoFile
  = Some (mkFile {[ "xl/drawings/drawing1.xml" := "Chart" ]} tt, None).
Proof.
  unfold demoDeleteChart.
  erewrite (DeleteChart_deletes_chart _ _ _ _ _ "Sheet1" "E1"
              "drawings/drawing1.xml" demoFile demoFile demoFile 5 1 tt
              {| RID := "rId1" |});
    try reflexivity; lia.
Defined.

End AssemblyExtra.
